(** * AI risk-explanation enrichment for access reviews

    A shallow embedding of [lambdas/ai_explanation/handler.py]: the
    generator [generate_ai_summary], the storage helpers
    [_existing_ai_summary], [_build_context_from_db], [_persist_summary],
    the per-review orchestrator [_process_single_review] and the entry point
    [handler] with its batch loop.

    Python code that reads and writes the database and calls the generation
    backend is modelled in a state-and-exception monad over a [World] that
    holds the [access_reviews] table, the prompts sent to the backend and
    the SQL statements executed so far.  Logging and the life cycle of the
    database connection are not modelled.

    Of [scripts/migrate.py] the two helpers with logic of their own are
    embedded as well: the statement splitter [_execute_statements] and
    [_ensure_sqlite_column]. *)

From Stdlib Require Import String Ascii List Bool ZArith NArith Lia.
Import ListNotations.
Open Scope string_scope.
Set Warnings "-register-all".

(** ** Python values *)

(** The values an event payload or a context dictionary can hold: what
    [json.loads] produces.  [JNull] is Python's [None]; numbers are the
    integers. *)
Inductive json : Type :=
| JNull
| JBool (b : bool)
| JInt (z : Z)
| JStr (s : string)
| JList (l : list json)
| JDict (kv : list (string * json)).

(** Python's truth value of a string, as tested by [if s:]. *)
Definition str_truthy (s : string) : bool :=
  match s with
  | EmptyString => false
  | String _ _ => true
  end.

(** Python's truth value of an object, as tested by [if v:] and [not v]. *)
Definition truthy (v : json) : bool :=
  match v with
  | JNull => false
  | JBool b => b
  | JInt z => negb (Z.eqb z 0)
  | JStr s => str_truthy s
  | JList l => match l with [] => false | _ :: _ => true end
  | JDict kv => match kv with [] => false | _ :: _ => true end
  end.

(** Truth value of a [str | None]. *)
Definition opt_truthy (o : option string) : bool :=
  match o with
  | None => false
  | Some s => str_truthy s
  end.

(** [str.isspace] on one character.  Characters are the 8-bit codes of
    [ascii]; on that range Python counts as white space the codes 9-13,
    28-32, 133 and 160. *)
Definition is_space (c : ascii) : bool :=
  let n := N_of_ascii c in
  ((9 <=? n) && (n <=? 13) || (28 <=? n) && (n <=? 32)
   || (n =? 133) || (n =? 160))%N.

Fixpoint lstrip (s : string) : string :=
  match s with
  | EmptyString => EmptyString
  | String c s' => if is_space c then lstrip s' else s
  end.

Fixpoint rstrip (s : string) : string :=
  match s with
  | EmptyString => EmptyString
  | String c s' =>
      match rstrip s' with
      | EmptyString => if is_space c then EmptyString
                       else String c EmptyString
      | r => String c r
      end
  end.

(** [str.strip()]: leading and trailing white space removed. *)
Definition strip (s : string) : string := rstrip (lstrip s).

(** ** Storage *)

(** A row of [access_reviews], with the columns the handler touches. *)
Record Row : Type := mkRow {
  review_id : string;
  user_id : string;
  role_id : string;
  user_name : string;
  role_name : string;
  risk_level : string;
  ai_risk_summary : option string
}.

Definition Table : Type := list Row.

(** The statements the handler sends to the database. *)
Inductive Stmt : Type :=
| SelectSummary (rid : string)
| FetchReviewContext (rid : string)
| ListHighRiskMissingAi
| UpdateSummary (summary rid : string).

(** Python exceptions (subclasses of [Exception]) the handler can meet. *)
Inductive exn : Type :=
| RuntimeError (msg : string)
| ValueError (msg : string)
| BackendError (msg : string)
| DbError (msg : string).

(** What [client.models.generate_content] hands back: an object without a
    [text] attribute, or one whose [text] is [None] or a string. *)
Inductive response : Type :=
| NoTextAttr
| Text (t : option string).

Inductive reply : Type :=
| Raises (e : exn)
| Returns (r : response).

(** The generation client, [client.models.generate_content] called with
    the fixed model name and [temperature] 0.0: its reply may depend on the
    prompts it was sent before as well as on the prompt of the call. *)
Definition Client : Type := list string -> string -> reply.

Record World : Type := mkWorld {
  table : Table;
  gen_log : list string;
  db_log : list Stmt
}.

(** ** The monad: state passing with exceptions *)

Inductive result (A : Type) : Type :=
| Ok (a : A)
| Raise (e : exn).
Arguments Ok {A} a.
Arguments Raise {A} e.

Definition M (A : Type) : Type := World -> result A * World.

Definition ret {A} (a : A) : M A := fun w => (Ok a, w).

Definition raise {A} (e : exn) : M A := fun w => (Raise e, w).

Definition bind {A B} (m : M A) (k : A -> M B) : M B :=
  fun w =>
    match m w with
    | (Ok a, w') => k a w'
    | (Raise e, w') => (Raise e, w')
    end.

(** [try: m / except Exception: h] *)
Definition try_except {A} (m : M A) (h : exn -> M A) : M A :=
  fun w =>
    match m w with
    | (Ok a, w') => (Ok a, w')
    | (Raise e, w') => h e w'
    end.

Notation "x <- m ;; k" := (bind m (fun x => k))
  (at level 61, m at next level, right associativity).
Notation "m ;;; k" := (bind m (fun _ => k))
  (at level 61, right associativity).

(** ** Outcomes *)

(** The dictionary returned for one review:
    [{"status": ..., "review_id": ..., "reason": ...}], the last key
    only on the skipped and failed paths. *)
Record Outcome : Type := mkOutcome {
  status : string;
  out_review_id : string;
  reason : option string
}.

(** What [handler] returns: one outcome, or the batch envelope
    [{"status": ..., "processed": [...]}]. *)
Inductive HandlerResult : Type :=
| Single (o : Outcome)
| Batch (batch_status : string) (processed : list Outcome).

(** The event dictionary, through the three keys [handler] reads with
    [event.get]: a missing key and a [null] both read as [None]. *)
Record Event : Type := mkEvent {
  ev_review_id : option string;
  ev_user_context : json;
  ev_policy_json : json
}.

Definition empty_event : Event := mkEvent None JNull JNull.

Definition nl : string := String (ascii_of_nat 10) EmptyString.

Definition SYSTEM_PROMPT : string :=
"
You are an Identity Governance and Compliance Analyst.

Given:
- A user's department and role
- An IAM policy in JSON format

Explain in ONE concise sentence:
1. Why this access is risky (if it is)
2. What action is recommended

Do NOT make final decisions.
Do NOT invent facts.
Use clear, non-technical language.
Return plain text only.
".

Definition FALLBACK_SUMMARY : string :=
  "High-risk access detected based on policy and role mismatch. "
  ++ "Manual review recommended.".

Definition SKIPPED (rid why : string) : Outcome :=
  mkOutcome "SKIPPED" rid (Some why).
Definition FAILED (rid why : string) : Outcome :=
  mkOutcome "FAILED" rid (Some why).
Definition SUCCESS (rid : string) : Outcome :=
  mkOutcome "SUCCESS" rid None.

(** ** SQL on the table *)

(** [WHERE review_id = ?] *)
Definition matches (rid : string) (r : Row) : bool := review_id r =? rid.

(** [cur.fetchone()] after a [SELECT ... WHERE review_id = ?]. *)
Definition fetchone (t : Table) (rid : string) : option Row :=
  find (matches rid) t.

Definition set_summary (summary : string) (r : Row) : Row :=
  mkRow (review_id r) (user_id r) (role_id r) (user_name r) (role_name r)
        (risk_level r) (Some summary).

(** [UPDATE access_reviews SET ai_risk_summary = ? WHERE review_id = ?] *)
Definition sql_update (summary rid : string) (t : Table) : Table :=
  map (fun r => if matches rid r then set_summary summary r else r) t.

(** The summary a [SELECT ai_risk_summary ... WHERE review_id = ?] finds:
    [row[0] if row else None]. *)
Definition stored_summary (t : Table) (rid : string) : option string :=
  match fetchone t rid with
  | Some row => ai_risk_summary row
  | None => None
  end.

(** The world after one more executed statement. *)
Definition logged (s : Stmt) (w : World) : World :=
  mkWorld (table w) (gen_log w) (db_log w ++ [s]).

(** The world after one more prompt sent to the backend. *)
Definition prompted (contents : string) (w : World) : World :=
  mkWorld (table w) (gen_log w ++ [contents]) (db_log w).

(** [event = event or {}] *)
Definition or_empty (event : option Event) : Event :=
  match event with
  | Some e => e
  | None => empty_event
  end.

(** Modelled from the spec: the filter behind
    [repo.list_high_risk_reviews_missing_ai] ([common/repo.py] is not part
    of the sources at hand): every review whose [risk_level] is [HIGH] and
    whose [ai_risk_summary] is null, in storage order. *)
Definition high_risk_missing_ai (r : Row) : bool :=
  (risk_level r =? "HIGH")
  && match ai_risk_summary r with None => true | Some _ => false end.


(** ** Sample data

    Reviews, backends and database behaviours on which the handler is run
    in the examples that close the development. *)

(** A serialiser to run the examples with: the key names of a dictionary.
    The sample backends below do not look at the prompt. *)
Definition keys_dumps (v : json) : string :=
  match v with
  | JDict kv => "{" ++ String.concat ", " (map fst kv) ++ "}"
  | JStr s => s
  | _ => "null"
  end.

Definition no_faults : World -> Stmt -> bool := fun _ _ => false.

(** The database refuses the [UPDATE] of one review. *)
Definition write_fails_for (rid : string) : World -> Stmt -> bool :=
  fun _ s =>
    match s with
    | UpdateSummary _ r => r =? rid
    | _ => false
    end.

Definition admin_arn : string := "arn:aws:iam::aws:policy/AdministratorAccess".

Definition R1 : Row :=
  mkRow "R1" "u1" admin_arn "alice" "AdministratorAccess" "HIGH" None.
Definition R2 : Row :=
  mkRow "R2" "u2" "arn:aws:iam::aws:policy/ReadOnlyAccess" "bob"
        "ReadOnlyAccess" "LOW" None.
Definition R3 : Row :=
  mkRow "R3" "u3" admin_arn "carol" "AdministratorAccess" "HIGH"
        (Some "already there").
Definition R5 : Row :=
  mkRow "R5" "u5" admin_arn "eve" "AdministratorAccess" "HIGH" None.

Definition world_of (t : Table) : World := mkWorld t [] [].

(** A backend that always answers with the same text. *)
Definition client_const (t : string) : Client :=
  fun _ _ => Returns (Text (Some t)).


(** A backend whose first answer is a single space and whose later answers
    are [t]. *)
Definition client_blank_then (t : string) : Client :=
  fun history _ =>
    match history with
    | [] => Returns (Text (Some " "))
    | _ :: _ => Returns (Text (Some t))
    end.

Definition inline_user : json :=
  JDict [("user_id", JStr "u2"); ("department", JStr "Finance")].
Definition inline_policy : json :=
  JDict [("policy_name", JStr "ReadOnlyAccess")].

(** ** Reading the table and the logs *)

(** The columns this handler only reads. *)
Definition same_columns (r r' : Row) : Prop :=
  review_id r' = review_id r /\ user_id r' = user_id r
  /\ role_id r' = role_id r /\ user_name r' = user_name r
  /\ role_name r' = role_name r /\ risk_level r' = risk_level r.

Definition is_update (s : Stmt) : bool :=
  match s with
  | UpdateSummary _ _ => true
  | _ => false
  end.

(** [if review_id:] in [handler]. *)
Definition single_mode (event : option Event) : bool :=
  opt_truthy (ev_review_id (or_empty event)).

Definition first_char (s : string) : option ascii :=
  match s with
  | EmptyString => None
  | String c _ => Some c
  end.

Fixpoint last_char (s : string) : option ascii :=
  match s with
  | EmptyString => None
  | String c EmptyString => Some c
  | String _ s' => last_char s'
  end.

Definition is_space_opt (o : option ascii) : bool :=
  match o with
  | Some c => is_space c
  | None => false
  end.

(** Every character is white space. *)
Definition all_space (s : string) : bool :=
  forallb is_space (list_ascii_of_string s).

(** The dictionaries [_build_context_from_db] makes of a stored row. *)
Definition user_context_of (r : Row) : json :=
  JDict [("user_id", JStr (user_id r));
         ("user_name", JStr (user_name r));
         ("department", JStr "Unknown");
         ("role", JStr (role_name r))].

Definition policy_json_of (r : Row) : json :=
  JDict [("policy_arn", JStr (role_id r));
         ("policy_name", JStr (role_name r))].

(** ** Schema migration ([scripts/migrate.py])

    The statement splitter [_execute_statements], over a cursor that
    records the statements it ran, and [_ensure_sqlite_column], over a
    connection to SQLite. *)

(** [str.split(sep)] for a separator of one character. *)
Fixpoint split_on (sep : ascii) (s : string) : list string :=
  match s with
  | EmptyString => [EmptyString]
  | String c s' =>
      if Ascii.eqb c sep then EmptyString :: split_on sep s'
      else
        match split_on sep s' with
        | piece :: rest => String c piece :: rest
        | [] => [String c EmptyString]
        end
  end.

Definition semicolon : ascii := ";"%char.

(** [cur.execute(stmt)]: raises, or runs and is recorded.  Whether the
    server refuses a statement may depend on those run before. *)
Definition cur_execute (execute_raises : list string -> string -> bool)
    (stmt : string) (cur : list string) : result unit * list string :=
  if execute_raises cur stmt then (Raise (DbError "execute failed"), cur)
  else (Ok tt, (cur ++ [stmt])%list).

(** The body of the [for statement in sql_blob.split(";")] loop. *)
Fixpoint execute_each (execute_raises : list string -> string -> bool)
    (pieces : list string) (cur : list string)
  : result unit * list string :=
  match pieces with
  | [] => (Ok tt, cur)
  | statement :: rest =>
      let stmt := strip statement in
      if negb (str_truthy stmt) then execute_each execute_raises rest cur
      else
        match cur_execute execute_raises stmt cur with
        | (Ok _, cur') => execute_each execute_raises rest cur'
        | (Raise e, cur') => (Raise e, cur')
        end
  end.

Definition _execute_statements (execute_raises : list string -> string -> bool)
    (sql_blob : string) (cur : list string) : result unit * list string :=
  execute_each execute_raises (split_on semicolon sql_blob) cur.

(** The statements of a script: its pieces between semicolons, stripped,
    the empty ones dropped. *)
Definition statements_of (sql_blob : string) : list string :=
  filter str_truthy (map strip (split_on semicolon sql_blob)).

(** A row of [PRAGMA table_info]:
    [(cid, name, type, notnull, dflt_value, pk)]. *)
Record InfoRow : Type := mkInfoRow {
  info_cid : Z;
  info_name : string;
  info_type : string;
  info_notnull : Z;
  info_dflt_value : option string;
  info_pk : Z
}.

(** [f"PRAGMA table_info({table})"] *)
Definition pragma_table_info (table : string) : string :=
  "PRAGMA table_info(" ++ table ++ ")".

(** [f"ALTER TABLE {table} ADD COLUMN {column} {column_def}"] *)
Definition alter_table_add_column (table column column_def : string)
  : string :=
  "ALTER TABLE " ++ table ++ " ADD COLUMN " ++ column ++ " " ++ column_def.

(** SQLite behind a connection: what it makes of the text of a statement
    in a state of the database, the rows it answers or the exception it
    raises, and the state it leaves.  The texts are built by interpolation,
    so how SQLite reads them is not fixed here. *)
Definition SqliteEngine (Db : Type) : Type :=
  string -> Db -> result (list InfoRow) * Db.

(** [cur.execute(sql)] and [cur.fetchall()] on a connection: the state of
    the database and the texts sent so far, accepted or not. *)
Definition sqlite_execute {Db : Type} (engine : SqliteEngine Db)
    (sql : string) (conn : Db * list string)
  : result (list InfoRow) * (Db * list string) :=
  let (r, db') := engine sql (fst conn) in
  (r, (db', (snd conn ++ [sql])%list)).

Definition _ensure_sqlite_column {Db : Type} (engine : SqliteEngine Db)
    (table column column_def : string) (conn : Db * list string)
  : result unit * (Db * list string) :=
  match sqlite_execute engine (pragma_table_info table) conn with
  | (Raise e, conn1) => (Raise e, conn1)
  | (Ok rows, conn1) =>
      let existing := map info_name rows in
      if negb (existsb (String.eqb column) existing) then
        match sqlite_execute engine
                (alter_table_add_column table column column_def) conn1 with
        | (Raise e, conn2) => (Raise e, conn2)
        | (Ok _, conn2) => (Ok tt, conn2)
        end
      else (Ok tt, conn1)
  end.

(** A sample engine and a sample script.  The engine knows one table,
    [access_reviews], by the names of its columns, and the two statements
    of the migration for [ai_risk_summary]. *)
Fixpoint info_rows_from (cid : Z) (cols : list string) : list InfoRow :=
  match cols with
  | [] => []
  | name :: rest =>
      mkInfoRow cid name "TEXT" 0 None 0 :: info_rows_from (cid + 1) rest
  end.

Definition sample_engine : SqliteEngine (list string) :=
  fun sql cols =>
    if sql =? "PRAGMA table_info(access_reviews)" then
      (Ok (info_rows_from 0 cols), cols)
    else if sql
            =? "ALTER TABLE access_reviews ADD COLUMN ai_risk_summary TEXT"
    then
      if existsb (String.eqb "ai_risk_summary") cols then
        (Raise (DbError "duplicate column name: ai_risk_summary"), cols)
      else (Ok [], (cols ++ ["ai_risk_summary"])%list)
    else (Raise (DbError "syntax error"), cols).

Definition never_raises : list string -> string -> bool := fun _ _ => false.

(** The server refuses one statement. *)
Definition refuses (bad : string) : list string -> string -> bool :=
  fun _ stmt => stmt =? bad.

Definition sample_script : string :=
  "CREATE TABLE a (x INT);" ++ nl ++ "CREATE TABLE b (y INT);" ++ nl.

(** ** The handler *)

Section Handler.

(** [json.dumps(_, indent=2)] of the standard library. *)
Variable json_dumps : json -> string.

(** The module-level [client]: [None] when [GOOGLE_API_KEY] is unset. *)
Variable client : option Client.

(** Whether the database raises on a statement, in a given world. *)
Variable db_raises : World -> Stmt -> bool.

(** [db.execute(cur, sql, params)]: raises, or runs and is recorded. *)
Definition db_execute (s : Stmt) : M unit :=
  fun w =>
    if db_raises w s then (Raise (DbError "execute failed"), w)
    else (Ok tt, logged s w).

Definition get_table : M Table := fun w => (Ok (table w), w).

Definition modify_table (f : Table -> Table) : M unit :=
  fun w => (Ok tt, mkWorld (f (table w)) (gen_log w) (db_log w)).

(** The [contents] argument of [generate_content]: the system prompt,
    a blank line, and the f-string with both contexts dumped. *)
Definition request_contents (user_context policy_json : json) : string :=
  let prompt :=
    nl ++ "User Context:" ++ nl ++ json_dumps user_context ++ nl
       ++ nl ++ "IAM Policy:" ++ nl ++ json_dumps policy_json ++ nl in
  SYSTEM_PROMPT ++ nl ++ nl ++ prompt.

Definition generate_ai_summary (user_context policy_json : json) : M string :=
  match client with
  | None => raise (RuntimeError "GenAI client not initialized")
  | Some cl =>
      let contents := request_contents user_context policy_json in
      fun w =>
        match cl (gen_log w) contents with
        | Raises e => (Raise e, prompted contents w)
        | Returns (Text (Some t)) =>
            if str_truthy t then (Ok (strip t), prompted contents w)
            else (Raise (ValueError "Empty GenAI response"),
                  prompted contents w)
        | Returns _ =>
            (Raise (ValueError "Empty GenAI response"), prompted contents w)
        end
  end.

Definition _existing_ai_summary (rid : string) : M (option string) :=
  db_execute (SelectSummary rid) ;;;
  t <- get_table ;;
  ret (stored_summary t rid).

(** Modelled from the spec: [repo.fetch_review_context] ([common/repo.py]
    is not part of the sources at hand), by the storage contract
    [fetch_review_context(review_id) -> (id, subject_id, role_id,
    subject_name, role_name, risk_level) | none]. *)
Definition fetch_review_context (rid : string)
  : M (option (string * string * string * string * string * string)) :=
  db_execute (FetchReviewContext rid) ;;;
  t <- get_table ;;
  ret (match fetchone t rid with
       | Some r => Some (review_id r, user_id r, role_id r,
                         user_name r, role_name r, risk_level r)
       | None => None
       end).

(** Modelled from the spec: [repo.list_high_risk_reviews_missing_ai], the
    storage-side filter, returning the rows found. *)
Definition list_high_risk_reviews_missing_ai : M (list Row) :=
  db_execute ListHighRiskMissingAi ;;;
  t <- get_table ;;
  ret (filter high_risk_missing_ai t).

Definition _build_context_from_db (rid : string)
  : M (option (json * json * string)) :=
  row <- fetch_review_context rid ;;
  match row with
  | None => ret None
  | Some (_, user_id, role_id, user_name, role_name, risk_level) =>
      let user_context :=
        JDict [("user_id", JStr user_id);
               ("user_name", JStr user_name);
               ("department", JStr "Unknown");
               ("role", JStr role_name)] in
      let policy_json :=
        JDict [("policy_arn", JStr role_id);
               ("policy_name", JStr role_name)] in
      ret (Some (user_context, policy_json, risk_level))
  end.

Definition _persist_summary (rid summary : string) : M unit :=
  db_execute (UpdateSummary summary rid) ;;;
  modify_table (sql_update summary rid).

(** The [try]/[except Exception] around the generator call. *)
Definition summary_or_fallback (user_context policy_json : json) : M string :=
  try_except (generate_ai_summary user_context policy_json)
             (fun _ => ret FALLBACK_SUMMARY).

(** The tail of [_process_single_review], from the risk gate on. *)
Definition gate_generate_persist (rid : string) (user_context policy_json : json)
    (risk_level : string) : M Outcome :=
  if negb (risk_level =? "HIGH") then ret (SKIPPED rid "non_high_risk")
  else
    summary <- summary_or_fallback user_context policy_json ;;
    _persist_summary rid summary ;;;
    ret (SUCCESS rid).

Definition _process_single_review (rid : string)
    (user_context policy_json : json) : M Outcome :=
  existing <- _existing_ai_summary rid ;;
  if opt_truthy existing then ret (SKIPPED rid "already_present")
  else
    if negb (truthy user_context) || negb (truthy policy_json) then
      context <- _build_context_from_db rid ;;
      match context with
      | None => ret (FAILED rid "not_found")
      | Some (user_context, policy_json, risk_level) =>
          gate_generate_persist rid user_context policy_json risk_level
      end
    else gate_generate_persist rid user_context policy_json "HIGH".

(** The [for row in ...] loop of batch mode, appending to [results]. *)
Fixpoint batch_loop (rows : list Row) (results : list Outcome)
  : M (list Outcome) :=
  match rows with
  | [] => ret results
  | row :: rest =>
      o <- _process_single_review (review_id row) JNull JNull ;;
      batch_loop rest (results ++ [o])
  end.

(** Batch mode: the part of [handler] after [if review_id:]. *)
Definition batch_mode : M HandlerResult :=
  rows <- list_high_risk_reviews_missing_ai ;;
  results <- batch_loop rows [] ;;
  ret (Batch "SUCCESS" results).

Definition handler (event : option Event) : M HandlerResult :=
  let event := or_empty event in
  let user_context := ev_user_context event in
  let policy_json := ev_policy_json event in
  match ev_review_id event with
  | Some rid =>
      if str_truthy rid then
        o <- _process_single_review rid user_context policy_json ;;
        ret (Single o)
      else batch_mode
  | None => batch_mode
  end.


(** What the [try]/[except] around the generator yields, as a function of
    the prompts sent so far: the stripped text of the reply, or the
    fallback sentence. *)
Definition reply_summary (history : list string) (uc pj : json) : string :=
  match client with
  | None => FALLBACK_SUMMARY
  | Some cl =>
      match cl history (request_contents uc pj) with
      | Returns (Text (Some t)) =>
          if str_truthy t then strip t else FALLBACK_SUMMARY
      | _ => FALLBACK_SUMMARY
      end
  end.

(** The prompts one call of the generator sends. *)
Definition prompts_sent (uc pj : json) : list string :=
  match client with
  | None => []
  | Some _ => [request_contents uc pj]
  end.

(** The reply to the first prompt is a non-empty text made of white space
    only. *)
Definition blank_reply (history : list string) (uc pj : json) : bool :=
  match client with
  | None => false
  | Some cl =>
      match cl history (request_contents uc pj) with
      | Returns (Text (Some t)) => str_truthy t && all_space t
      | _ => false
      end
  end.

(** ** Basic facts *)

(** The database answers every statement. *)
Definition db_healthy : Prop := forall w s, db_raises w s = false.

Lemma str_truthy_iff (s : string) : str_truthy s = true <-> s <> "".
Proof. destruct s; simpl; split; congruence. Qed.


Lemma fetchone_matches (t : Table) (rid : string) (r : Row) :
  fetchone t rid = Some r -> In r t /\ review_id r = rid.
Proof.
  unfold fetchone. intros H. apply find_some in H. destruct H as [Hin Hm].
  split; auto. unfold matches in Hm. now apply String.eqb_eq.
Qed.


Lemma fetchone_sql_update (summary rid : string) (t : Table) (r : Row) :
  fetchone t rid = Some r ->
  fetchone (sql_update summary rid t) rid = Some (set_summary summary r).
Proof.
  unfold fetchone, sql_update. induction t as [|x t IH]; simpl; intros H.
  - discriminate.
  - destruct (matches rid x) eqn:E.
    + inversion H; subst. simpl. unfold matches in *. simpl. now rewrite E.
    + simpl. rewrite E. now apply IH.
Qed.

Lemma stored_summary_sql_update (summary rid : string) (t : Table) (r : Row) :
  fetchone t rid = Some r ->
  stored_summary (sql_update summary rid t) rid = Some summary.
Proof.
  intros H. unfold stored_summary.
  now rewrite (fetchone_sql_update summary rid t r H).
Qed.

Lemma db_execute_ok (s : Stmt) (w : World) :
  db_healthy -> db_execute s w = (Ok tt, logged s w).
Proof. intros H. unfold db_execute. now rewrite H. Qed.

Lemma existing_ok (rid : string) (w : World) :
  db_healthy ->
  _existing_ai_summary rid w
  = (Ok (stored_summary (table w) rid), logged (SelectSummary rid) w).
Proof.
  intros H. unfold _existing_ai_summary, bind.
  now rewrite (db_execute_ok _ _ H).
Qed.

Lemma build_context_ok (rid : string) (w : World) :
  db_healthy ->
  _build_context_from_db rid w
  = (Ok (match fetchone (table w) rid with
         | Some r =>
             Some (JDict [("user_id", JStr (user_id r));
                          ("user_name", JStr (user_name r));
                          ("department", JStr "Unknown");
                          ("role", JStr (role_name r))],
                   JDict [("policy_arn", JStr (role_id r));
                          ("policy_name", JStr (role_name r))],
                   risk_level r)
         | None => None
         end),
     logged (FetchReviewContext rid) w).
Proof.
  intros H. unfold _build_context_from_db, fetch_review_context, bind.
  rewrite (db_execute_ok _ _ H). simpl.
  now destruct (fetchone (table w) rid).
Qed.

Lemma persist_ok (rid summary : string) (w : World) :
  db_healthy ->
  _persist_summary rid summary w
  = (Ok tt, mkWorld (sql_update summary rid (table w)) (gen_log w)
                    (db_log w ++ [UpdateSummary summary rid])).
Proof.
  intros H. unfold _persist_summary, bind.
  now rewrite (db_execute_ok _ _ H).
Qed.

(** The generator touches neither the table nor the statement log, and the
    [try]/[except] around it always yields a summary. *)
Lemma summary_or_fallback_total (uc pj : json) (w : World) :
  exists s w',
    summary_or_fallback uc pj w = (Ok s, w')
    /\ table w' = table w /\ db_log w' = db_log w.
Proof.
  unfold summary_or_fallback, try_except, generate_ai_summary.
  destruct client as [cl|]; simpl.
  - destruct (cl (gen_log w) (request_contents uc pj)) as [e|[|[t|]]];
      simpl; try (destruct (str_truthy t)); unfold ret; simpl; eauto 6.
  - unfold raise, ret. eauto 6.
Qed.

(** From the risk gate on, for a [HIGH] review and a healthy database. *)
Lemma gate_high (rid : string) (uc pj : json) (w : World) :
  db_healthy ->
  exists s w1,
    summary_or_fallback uc pj w = (Ok s, w1)
    /\ table w1 = table w /\ db_log w1 = db_log w
    /\ gate_generate_persist rid uc pj "HIGH" w
       = (Ok (SUCCESS rid),
          mkWorld (sql_update s rid (table w)) (gen_log w1)
                  (db_log w ++ [UpdateSummary s rid])).
Proof.
  intros H. destruct (summary_or_fallback_total uc pj w) as (s & w1 & E & Ht & Hl).
  exists s, w1. repeat split; auto.
  unfold gate_generate_persist. simpl. unfold bind. rewrite E.
  rewrite (persist_ok _ _ _ H). now rewrite Ht, Hl.
Qed.

(** ** The persistence step *)

(** C9 (persistence frame): [_persist_summary] leaves every column but
    [ai_risk_summary] of every row as it was, leaves the rows of other
    reviews untouched, sends no prompt, and, when the statement runs, sets
    the summary of the rows whose [review_id] matches. *)
Theorem persist_summary_frame (rid summary : string) (w : World) :
  Forall2
    (fun r r' =>
       review_id r' = review_id r /\ user_id r' = user_id r
       /\ role_id r' = role_id r /\ user_name r' = user_name r
       /\ role_name r' = role_name r /\ risk_level r' = risk_level r
       /\ (review_id r <> rid -> r' = r)
       /\ (review_id r = rid ->
           fst (_persist_summary rid summary w) = Ok tt ->
           ai_risk_summary r' = Some summary))
    (table w) (table (snd (_persist_summary rid summary w)))
  /\ gen_log (snd (_persist_summary rid summary w)) = gen_log w.
Proof.
  unfold _persist_summary, bind, db_execute.
  destruct (db_raises w (UpdateSummary summary rid)); simpl.
  - split; auto. induction (table w) as [|r t IH]; constructor; auto.
    repeat split; auto. discriminate.
  - split; auto. induction (table w) as [|r t IH]; simpl; constructor; auto.
    unfold matches. destruct (String.eqb_spec (review_id r) rid) as [E|E];
      simpl; repeat split; auto; congruence.
Qed.

(** ** One review *)




(** A review that already has a non-empty summary stops at the first
    check: one read, nothing else. *)
Lemma already_present_skipped (rid : string) (uc pj : json) (w : World) :
  db_healthy ->
  opt_truthy (stored_summary (table w) rid) = true ->
  _process_single_review rid uc pj w
  = (Ok (SKIPPED rid "already_present"), logged (SelectSummary rid) w).
Proof.
  intros H Hs. unfold _process_single_review, bind.
  rewrite (existing_ok _ _ H). now rewrite Hs.
Qed.

(** Past the first check with a review that resolves to [HIGH]: the
    summary obtained is stored and the outcome is [SUCCESS]. *)
Lemma eligible_success (rid : string) (uc pj : json) (w : World) (r : Row) :
  db_healthy ->
  fetchone (table w) rid = Some r ->
  risk_level r = "HIGH" ->
  opt_truthy (ai_risk_summary r) = false ->
  exists s w',
    _process_single_review rid uc pj w = (Ok (SUCCESS rid), w')
    /\ table w' = sql_update s rid (table w)
    /\ stored_summary (table w') rid = Some s.
Proof.
  intros H Hf Hrisk Hsum.
  unfold _process_single_review, bind. rewrite (existing_ok _ _ H).
  unfold stored_summary at 1. rewrite Hf, Hsum. cbv beta iota.
  destruct (negb (truthy uc) || negb (truthy pj)).
  - rewrite (build_context_ok _ _ H). cbn [table logged]. cbv beta iota.
    rewrite Hf, Hrisk.
    match goal with
    | |- context [gate_generate_persist rid ?u ?p "HIGH" ?w0] =>
        destruct (gate_high rid u p w0 H) as (s & w1 & _ & _ & _ & G)
    end.
    exists s. eexists. split; [exact G|]. simpl. split; auto.
    now apply stored_summary_sql_update with (r := r).
  - destruct (gate_high rid uc pj (logged (SelectSummary rid) w) H)
      as (s & w1 & _ & _ & _ & G).
    exists s. eexists. split; [exact G|]. simpl. split; auto.
    now apply stored_summary_sql_update with (r := r).
Qed.

(** C1, amended (idempotence): for a stored [HIGH] review without a
    summary, the first call answers [SUCCESS] and stores a summary;
    whenever the summary it stored is not the empty string, a second call
    answers [SKIPPED] with reason [already_present], leaves the table as
    the first call left it, and the stored summary is the one of the first
    call. *)
Theorem enrichment_idempotent (rid : string) (uc pj : json) (w : World)
    (r : Row) :
  db_healthy ->
  fetchone (table w) rid = Some r ->
  risk_level r = "HIGH" ->
  opt_truthy (ai_risk_summary r) = false ->
  exists s w1,
    _process_single_review rid uc pj w = (Ok (SUCCESS rid), w1)
    /\ table w1 = sql_update s rid (table w)
    /\ stored_summary (table w1) rid = Some s
    /\ (s <> "" ->
        exists w2,
          _process_single_review rid uc pj w1
          = (Ok (SKIPPED rid "already_present"), w2)
          /\ table w2 = table w1
          /\ gen_log w2 = gen_log w1
          /\ stored_summary (table w2) rid = Some s).
Proof.
  intros H Hf Hrisk Hsum.
  destruct (eligible_success rid uc pj w r H Hf Hrisk Hsum)
    as (s & w1 & E & Ht & Hs).
  exists s, w1. split; [exact E|]. split; [exact Ht|]. split; [exact Hs|].
  intros Hne.
  exists (logged (SelectSummary rid) w1). split.
  - apply already_present_skipped; auto.
    rewrite Hs. simpl. now apply str_truthy_iff.
  - simpl. auto.
Qed.

(** ** Write-once *)





Lemma existing_table (rid : string) (w : World) :
  table (snd (_existing_ai_summary rid w)) = table w
  /\ forall v, fst (_existing_ai_summary rid w) = Ok v ->
               v = stored_summary (table w) rid.
Proof.
  unfold _existing_ai_summary, bind, db_execute.
  destruct (db_raises w (SelectSummary rid)); simpl; split; auto;
    intros v Hv; congruence.
Qed.

Lemma build_context_table (rid : string) (w : World) :
  table (snd (_build_context_from_db rid w)) = table w.
Proof.
  unfold _build_context_from_db, fetch_review_context, bind, db_execute.
  destruct (db_raises w (FetchReviewContext rid)); simpl; auto.
  now destruct (fetchone (table w) rid).
Qed.

Lemma gate_table (rid : string) (uc pj : json) (risk : string) (w : World) :
  table (snd (gate_generate_persist rid uc pj risk w)) = table w
  \/ exists s,
      table (snd (gate_generate_persist rid uc pj risk w))
      = sql_update s rid (table w).
Proof.
  unfold gate_generate_persist.
  destruct (negb (risk =? "HIGH")); [now left|].
  unfold bind.
  destruct (summary_or_fallback_total uc pj w) as (s & w1 & E & Ht & _).
  rewrite E. unfold _persist_summary, bind, db_execute.
  destruct (db_raises w1 (UpdateSummary s rid)); simpl.
  - now left.
  - right. exists s. now rewrite Ht.
Qed.

Lemma process_table (rid : string) (uc pj : json) (w : World) :
  table (snd (_process_single_review rid uc pj w)) = table w
  \/ (opt_truthy (stored_summary (table w) rid) = false
      /\ exists s,
          table (snd (_process_single_review rid uc pj w))
          = sql_update s rid (table w)).
Proof.
  unfold _process_single_review, bind.
  destruct (existing_table rid w) as [Ht Hv].
  destruct (_existing_ai_summary rid w) as [[v|e] w0]; simpl in *;
    [|now left].
  rewrite (Hv v eq_refl).
  destruct (opt_truthy (stored_summary (table w) rid)) eqn:Es;
    [now left|].
  destruct (negb (truthy uc) || negb (truthy pj)).
  - pose proof (build_context_table rid w0) as Hb.
    destruct (_build_context_from_db rid w0) as [[[[[u p] k]|]|e] w1];
      simpl in *; try (left; congruence).
    destruct (gate_table rid u p k w1) as [G|[s G]].
    + left. congruence.
    + right. split; auto. exists s. congruence.
  - destruct (gate_table rid uc pj "HIGH" w0) as [G|[s G]].
    + left. congruence.
    + right. split; auto. exists s. congruence.
Qed.





(** ** The generator *)

(** Only the database makes the orchestrator raise. *)
Lemma gate_raises_db (rid : string) (uc pj : json) (risk : string)
    (w w' : World) (e : exn) :
  gate_generate_persist rid uc pj risk w = (Raise e, w') ->
  e = DbError "execute failed".
Proof.
  unfold gate_generate_persist.
  destruct (negb (risk =? "HIGH")); [discriminate|].
  unfold bind.
  destruct (summary_or_fallback_total uc pj w) as (s & w1 & E & _).
  rewrite E. unfold _persist_summary, bind, db_execute.
  destruct (db_raises w1 (UpdateSummary s rid)); simpl; unfold ret;
    intros Hx; inversion Hx; reflexivity.
Qed.

Lemma process_raises_db (rid : string) (uc pj : json) (w w' : World)
    (e : exn) :
  _process_single_review rid uc pj w = (Raise e, w') ->
  e = DbError "execute failed".
Proof.
  unfold _process_single_review, bind, _existing_ai_summary, bind, db_execute.
  destruct (db_raises w (SelectSummary rid)); simpl; [congruence|].
  destruct (opt_truthy (stored_summary (table w) rid)); [discriminate|].
  destruct (negb (truthy uc) || negb (truthy pj)).
  - unfold _build_context_from_db, fetch_review_context, bind, db_execute.
    destruct (db_raises (logged (SelectSummary rid) w)
                (FetchReviewContext rid)); simpl; [congruence|].
    destruct (fetchone (table w) rid); simpl; [|discriminate].
    apply gate_raises_db.
  - apply gate_raises_db.
Qed.

(** C7, amended (generator): [generate_ai_summary] raises exactly when
    there is no client, when the backend call raises, or when the reply
    has no text, a [None] text or an empty text; otherwise it returns the
    backend's text with leading and trailing white space stripped.  A
    raise of the generator is turned into the fallback sentence by the
    orchestrator, which itself raises on database errors only. *)
Theorem generate_ai_summary_cases (uc pj : json) (w : World) :
  ((exists e w', generate_ai_summary uc pj w = (Raise e, w'))
   <-> (client = None
        \/ exists cl,
            client = Some cl
            /\ ((exists e, cl (gen_log w) (request_contents uc pj) = Raises e)
                \/ cl (gen_log w) (request_contents uc pj)
                   = Returns NoTextAttr
                \/ cl (gen_log w) (request_contents uc pj)
                   = Returns (Text None)
                \/ cl (gen_log w) (request_contents uc pj)
                   = Returns (Text (Some "")))))
  /\ (forall cl t,
        client = Some cl ->
        cl (gen_log w) (request_contents uc pj) = Returns (Text (Some t)) ->
        t <> "" ->
        generate_ai_summary uc pj w
        = (Ok (strip t), prompted (request_contents uc pj) w))
  /\ (forall e w',
        generate_ai_summary uc pj w = (Raise e, w') ->
        summary_or_fallback uc pj w = (Ok FALLBACK_SUMMARY, w'))
  /\ (forall rid e w',
        _process_single_review rid uc pj w = (Raise e, w') ->
        e = DbError "execute failed").
Proof.
  repeat split.
  - intros (e & w' & E). unfold generate_ai_summary in E.
    destruct client as [cl|]; [right|now left].
    exists cl. split; auto.
    destruct (cl (gen_log w) (request_contents uc pj)) as [e0|[|[t|]]];
      eauto.
    destruct t; simpl in E; [eauto|discriminate].
  - intros [Hc | (cl & Hc & Hr)]; unfold generate_ai_summary; rewrite Hc.
    + unfold raise. eauto.
    + destruct Hr as [[e ->] | [-> | [-> | ->]]]; simpl; eauto.
  - intros cl t Hc Hr Ht. unfold generate_ai_summary. rewrite Hc, Hr.
    apply str_truthy_iff in Ht. now rewrite Ht.
  - intros e w' E. unfold summary_or_fallback, try_except. now rewrite E.
  - intros rid e w' E. now apply process_raises_db in E.
Qed.

(** ** Inline context *)


(** ** Batch mode *)

(** With a healthy database the orchestrator always returns an outcome,
    and the outcome carries the id it was called with. *)
Lemma process_total (rid : string) (uc pj : json) (w : World) :
  db_healthy ->
  exists o w',
    _process_single_review rid uc pj w = (Ok o, w')
    /\ out_review_id o = rid.
Proof.
  intros H.
  destruct (_process_single_review rid uc pj w) as [[o|e] w'] eqn:E.
  - exists o, w'. split; auto.
    revert E. unfold _process_single_review, bind.
    rewrite (existing_ok _ _ H).
    destruct (opt_truthy (stored_summary (table w) rid)).
    { intros E; inversion E; reflexivity. }
    assert (G : forall u p k w0 o0 w1,
               gate_generate_persist rid u p k w0 = (Ok o0, w1) ->
               out_review_id o0 = rid).
    { intros u p k w0 o0 w1. unfold gate_generate_persist.
      destruct (negb (k =? "HIGH")).
      - intros E; inversion E; reflexivity.
      - unfold bind.
        destruct (summary_or_fallback u p w0) as [[s|e] w2];
          [|discriminate].
        destruct (_persist_summary rid s w2) as [[[]|e] w3];
          [|discriminate].
        intros E; inversion E; reflexivity. }
    destruct (negb (truthy uc) || negb (truthy pj)).
    + rewrite (build_context_ok _ _ H).
      destruct (fetchone (table (logged (SelectSummary rid) w)) rid).
      * apply G.
      * intros E; inversion E; reflexivity.
    + apply G.
  - pose proof (process_raises_db _ _ _ _ _ _ E) as He. subst e.
    exfalso. revert E. unfold _process_single_review, bind.
    rewrite (existing_ok _ _ H).
    destruct (opt_truthy (stored_summary (table w) rid)); [discriminate|].
    assert (G : forall u p k w0,
               gate_generate_persist rid u p k w0
               <> (Raise (DbError "execute failed"), w')).
    { intros u p k w0. unfold gate_generate_persist.
      destruct (negb (k =? "HIGH")); [discriminate|].
      unfold bind.
      destruct (summary_or_fallback_total u p w0) as (s & w2 & Es & _).
      rewrite Es, (persist_ok _ _ _ H). discriminate. }
    destruct (negb (truthy uc) || negb (truthy pj)).
    + rewrite (build_context_ok _ _ H).
      destruct (fetchone (table (logged (SelectSummary rid) w)) rid).
      * apply G.
      * discriminate.
    + apply G.
Qed.


(** The loop over [pre ++ rest] is the loop over [pre] followed by the
    loop over [rest]. *)
Lemma batch_loop_app (pre rest : list Row) (acc : list Outcome) (w : World) :
  batch_loop (pre ++ rest) acc w
  = bind (batch_loop pre acc) (fun outs => batch_loop rest outs) w.
Proof.
  revert acc w. induction pre as [|row pre IH]; intros acc w; simpl.
  - reflexivity.
  - unfold bind.
    destruct (_process_single_review (review_id row) JNull JNull w)
      as [[o|e] w1]; [|reflexivity].
    now rewrite IH.
Qed.


(** C6, amended (no isolation of failures in a batch): when the
    orchestrator raises on a discovered review, [handler] raises the same
    exception and stops in the state the orchestrator left: no envelope is
    returned, no outcome is recorded for that review, and the reviews
    discovered after it are not processed. *)
Theorem batch_exception_propagates (event : option Event)
    (w w0 w1 w2 : World) (pre post : list Row) (row : Row)
    (outs : list Outcome) (e : exn) :
  opt_truthy (ev_review_id (or_empty event)) = false ->
  list_high_risk_reviews_missing_ai w = (Ok (pre ++ row :: post)%list, w0) ->
  batch_loop pre [] w0 = (Ok outs, w1) ->
  _process_single_review (review_id row) JNull JNull w1 = (Raise e, w2) ->
  handler event w = (Raise e, w2).
Proof.
  intros Hno Hl Hpre Hrow.
  assert (Hb : batch_mode w = (Raise e, w2)).
  { unfold batch_mode. unfold bind at 1. rewrite Hl.
    unfold bind at 1. rewrite batch_loop_app. unfold bind at 1.
    rewrite Hpre. simpl. unfold bind at 1. now rewrite Hrow. }
  unfold handler.
  destruct (ev_review_id (or_empty event)) as [rid|]; auto.
  simpl in Hno. now rewrite Hno.
Qed.

(** ** Effects of one review, accounted for *)

Lemma summary_or_fallback_eq (uc pj : json) (w : World) :
  summary_or_fallback uc pj w
  = (Ok (reply_summary (gen_log w) uc pj),
     mkWorld (table w) (gen_log w ++ prompts_sent uc pj) (db_log w)).
Proof.
  unfold summary_or_fallback, try_except, generate_ai_summary,
    reply_summary, prompts_sent.
  destruct client as [cl|].
  - destruct (cl (gen_log w) (request_contents uc pj)) as [e|[|[t|]]];
      try reflexivity.
    destruct (str_truthy t); reflexivity.
  - destruct w. simpl. unfold ret. now rewrite app_nil_r.
Qed.

Lemma prompts_sent_length (uc pj : json) : length (prompts_sent uc pj) <= 1.
Proof. unfold prompts_sent. destruct client; simpl; lia. Qed.

(** What the tail of the orchestrator does to the world, outcome by
    outcome. *)
Lemma gate_effect (rid : string) (uc pj : json) (risk : string) (w : World) :
  exists prompts stmts,
    gen_log (snd (gate_generate_persist rid uc pj risk w))
    = (gen_log w ++ prompts)%list
    /\ db_log (snd (gate_generate_persist rid uc pj risk w))
       = (db_log w ++ stmts)%list
    /\ length prompts <= 1
    /\ match fst (gate_generate_persist rid uc pj risk w) with
       | Ok o =>
           (o = SUCCESS rid
            /\ exists s,
                stmts = [UpdateSummary s rid]
                /\ table (snd (gate_generate_persist rid uc pj risk w))
                   = sql_update s rid (table w))
           \/ (o = SKIPPED rid "non_high_risk"
               /\ prompts = [] /\ stmts = []
               /\ table (snd (gate_generate_persist rid uc pj risk w))
                  = table w)
       | Raise e =>
           e = DbError "execute failed" /\ stmts = []
           /\ table (snd (gate_generate_persist rid uc pj risk w)) = table w
       end.
Proof.
  unfold gate_generate_persist.
  destruct (negb (risk =? "HIGH")).
  - exists [], []. simpl. rewrite !app_nil_r. repeat split; auto.
  - unfold bind. rewrite summary_or_fallback_eq.
    unfold _persist_summary, bind, db_execute.
    match goal with
    | |- context [db_raises ?w0 ?st] => destruct (db_raises w0 st)
    end; simpl.
    + exists (prompts_sent uc pj), []. rewrite app_nil_r.
      repeat split; auto using prompts_sent_length.
    + exists (prompts_sent uc pj), [UpdateSummary (reply_summary (gen_log w) uc pj) rid].
      repeat split; auto using prompts_sent_length.
      left. split; auto. eexists. split; reflexivity.
Qed.

(** The same for the whole orchestrator. *)
Lemma process_effect (rid : string) (uc pj : json) (w : World) :
  exists prompts stmts,
    gen_log (snd (_process_single_review rid uc pj w))
    = (gen_log w ++ prompts)%list
    /\ db_log (snd (_process_single_review rid uc pj w))
       = (db_log w ++ stmts)%list
    /\ length prompts <= 1
    /\ match fst (_process_single_review rid uc pj w) with
       | Ok o =>
           (o = SUCCESS rid
            /\ exists s,
                filter is_update stmts = [UpdateSummary s rid]
                /\ table (snd (_process_single_review rid uc pj w))
                   = sql_update s rid (table w))
           \/ ((o = SKIPPED rid "already_present"
                \/ o = SKIPPED rid "non_high_risk"
                \/ o = FAILED rid "not_found")
               /\ prompts = [] /\ filter is_update stmts = []
               /\ table (snd (_process_single_review rid uc pj w))
                  = table w)
       | Raise e =>
           e = DbError "execute failed" /\ filter is_update stmts = []
           /\ table (snd (_process_single_review rid uc pj w)) = table w
       end.
Proof.
  assert (G : forall u p k w0 pre,
             table w0 = table w -> gen_log w0 = gen_log w ->
             db_log w0 = (db_log w ++ pre)%list ->
             filter is_update pre = [] ->
             exists prompts stmts,
               gen_log (snd (gate_generate_persist rid u p k w0))
               = (gen_log w ++ prompts)%list
               /\ db_log (snd (gate_generate_persist rid u p k w0))
                  = (db_log w ++ stmts)%list
               /\ length prompts <= 1
               /\ match fst (gate_generate_persist rid u p k w0) with
                  | Ok o =>
                      (o = SUCCESS rid
                       /\ exists s,
                           filter is_update stmts = [UpdateSummary s rid]
                           /\ table (snd (gate_generate_persist rid u p k w0))
                              = sql_update s rid (table w))
                      \/ ((o = SKIPPED rid "already_present"
                           \/ o = SKIPPED rid "non_high_risk"
                           \/ o = FAILED rid "not_found")
                          /\ prompts = [] /\ filter is_update stmts = []
                          /\ table (snd (gate_generate_persist rid u p k w0))
                             = table w)
                  | Raise e =>
                      e = DbError "execute failed"
                      /\ filter is_update stmts = []
                      /\ table (snd (gate_generate_persist rid u p k w0))
                         = table w
                  end).
  { intros u p k w0 pre Ht Hg Hd Hpre.
    destruct (gate_effect rid u p k w0) as (prompts & stmts & Eg & Ed & Hl & Hm).
    exists prompts, (pre ++ stmts)%list.
    rewrite Eg, Ed, Hg, Hd, <- app_assoc. repeat split; auto.
    rewrite filter_app, Hpre. simpl.
    destruct (fst (gate_generate_persist rid u p k w0)) as [o|e].
    - destruct Hm as [(Ho & s & Hs & Hts) | (Ho & Hp & Hs & Hts)].
      + left. split; auto. exists s. subst stmts. simpl.
        split; auto. now rewrite Hts, Ht.
      + right. subst stmts. simpl. repeat split; auto. congruence.
    - destruct Hm as (He & Hs & Hts). subst stmts. simpl.
      repeat split; auto. congruence. }
  unfold _process_single_review, bind at 1, _existing_ai_summary, bind,
    db_execute.
  destruct (db_raises w (SelectSummary rid)); simpl.
  { exists [], []. rewrite !app_nil_r. repeat split; auto. }
  destruct (opt_truthy (stored_summary (table w) rid)); simpl.
  { exists [], [SelectSummary rid]. rewrite app_nil_r. simpl.
    repeat split; auto 6. }
  destruct (negb (truthy uc) || negb (truthy pj)).
  - unfold _build_context_from_db, fetch_review_context, bind, db_execute.
    destruct (db_raises (logged (SelectSummary rid) w)
                (FetchReviewContext rid)); simpl.
    { exists [], [SelectSummary rid]. rewrite app_nil_r. simpl.
      repeat split; auto. }
    destruct (fetchone (table w) rid) as [r|]; simpl.
    + apply G with (pre := [SelectSummary rid; FetchReviewContext rid]);
        simpl; auto. now rewrite <- app_assoc.
    + exists [], [SelectSummary rid; FetchReviewContext rid].
      rewrite app_nil_r, <- app_assoc. simpl.
      repeat split; auto 8.
  - apply G with (pre := [SelectSummary rid]); simpl; auto.
Qed.

Lemma sql_update_rows (summary rid : string) (t : Table) :
  Forall2
    (fun r r' => same_columns r r' /\ (review_id r <> rid -> r' = r))
    t (sql_update summary rid t).
Proof.
  unfold sql_update. induction t as [|r t IH]; simpl; constructor; auto.
  unfold matches. destruct (String.eqb_spec (review_id r) rid) as [E|E].
  - split; [|congruence]. unfold same_columns. simpl. repeat split.
  - split; [|reflexivity]. unfold same_columns. repeat split.
Qed.

Lemma same_rows_refl (rid : string) (t : Table) :
  Forall2
    (fun r r' => same_columns r r' /\ (review_id r <> rid -> r' = r)) t t.
Proof.
  induction t; constructor; auto. split; auto.
  unfold same_columns. repeat split.
Qed.

Lemma process_rows (rid : string) (uc pj : json) (w : World) :
  Forall2
    (fun r r' => same_columns r r' /\ (review_id r <> rid -> r' = r))
    (table w) (table (snd (_process_single_review rid uc pj w))).
Proof.
  destruct (process_table rid uc pj w) as [-> | [_ [s ->]]].
  - apply same_rows_refl.
  - apply sql_update_rows.
Qed.

Lemma same_columns_trans (t1 t2 t3 : Table) :
  Forall2 same_columns t1 t2 -> Forall2 same_columns t2 t3 ->
  Forall2 same_columns t1 t3.
Proof.
  intros H12. revert t3.
  induction H12 as [|a b l l' Hab _ IH]; intros t3 H23;
    inversion H23 as [|b' c m m' Hbc Hrest]; subst; constructor.
  - unfold same_columns in *. intuition congruence.
  - now apply IH.
Qed.

Lemma process_same_columns (rid : string) (uc pj : json) (w : World) :
  Forall2 same_columns (table w)
          (table (snd (_process_single_review rid uc pj w))).
Proof.
  eapply Forall2_impl; [|apply process_rows]. now intros a b [H _].
Qed.

Lemma batch_loop_same_columns (rows : list Row) (acc : list Outcome)
    (w : World) :
  Forall2 same_columns (table w) (table (snd (batch_loop rows acc w))).
Proof.
  revert acc w. induction rows as [|row rows IH]; intros acc w; simpl.
  - eapply Forall2_impl; [|apply (same_rows_refl "")]. now intros a b [H _].
  - unfold bind.
    pose proof (process_same_columns (review_id row) JNull JNull w) as Hk.
    destruct (_process_single_review (review_id row) JNull JNull w)
      as [[o|e] w1]; simpl in *; auto.
    eapply same_columns_trans; [exact Hk|apply IH].
Qed.

Lemma batch_mode_table (w : World) :
  table (snd (batch_mode w)) = table w
  \/ table (snd (batch_mode w))
     = table (snd (batch_loop (filter high_risk_missing_ai (table w)) []
                     (logged ListHighRiskMissingAi w))).
Proof.
  unfold batch_mode, list_high_risk_reviews_missing_ai, bind, db_execute.
  destruct (db_raises w ListHighRiskMissingAi); simpl; [now left|].
  right.
  destruct (batch_loop (filter high_risk_missing_ai (table w)) []
              (logged ListHighRiskMissingAi w)) as [[outs|e] w1];
    reflexivity.
Qed.

(** X1 (what the handler leaves alone): whatever the event, the database
    and the backend do, [handler] changes no column of any row other than
    [ai_risk_summary]; and in single-review mode the rows of all other
    reviews are left exactly as they were. *)
Theorem handler_frame (event : option Event) (w : World) :
  Forall2 same_columns (table w) (table (snd (handler event w)))
  /\ (forall rid,
        ev_review_id (or_empty event) = Some rid ->
        str_truthy rid = true ->
        Forall2 (fun r r' => review_id r <> rid -> r' = r)
                (table w) (table (snd (handler event w)))).
Proof.
  split.
  - assert (Hb : Forall2 same_columns (table w) (table (snd (batch_mode w)))).
    { destruct (batch_mode_table w) as [-> | ->].
      - eapply Forall2_impl; [|apply (same_rows_refl "")].
        now intros a b [H _].
      - apply (batch_loop_same_columns _ [] (logged ListHighRiskMissingAi w)). }
    unfold handler.
    destruct (ev_review_id (or_empty event)) as [rid|]; auto.
    destruct (str_truthy rid); auto.
    unfold bind.
    pose proof (process_same_columns rid (ev_user_context (or_empty event))
                  (ev_policy_json (or_empty event)) w) as Hk.
    destruct (_process_single_review rid (ev_user_context (or_empty event))
                (ev_policy_json (or_empty event)) w) as [[o|e] w1];
      simpl in *; auto.
  - intros rid Hid Ht. unfold handler. rewrite Hid, Ht. unfold bind.
    pose proof (process_rows rid (ev_user_context (or_empty event))
                  (ev_policy_json (or_empty event)) w) as Hk.
    destruct (_process_single_review rid (ev_user_context (or_empty event))
                (ev_policy_json (or_empty event)) w) as [[o|e] w1];
      simpl in *; (eapply Forall2_impl; [|exact Hk]); now intros a b [_ H].
Qed.

(** X2 (outcomes and effects match): the orchestrator sends at most one
    prompt.  It answers [SUCCESS] exactly when it has run one [UPDATE],
    for the review it was called with; on each of its three other
    outcomes, and when it raises, it has sent no [UPDATE] and the table is
    as it was; a skip or a failure sends no prompt either; and it raises
    database errors only. *)
Theorem outcome_accounts_for_effects (rid : string) (uc pj : json)
    (w : World) :
  exists prompts stmts,
    gen_log (snd (_process_single_review rid uc pj w))
    = (gen_log w ++ prompts)%list
    /\ db_log (snd (_process_single_review rid uc pj w))
       = (db_log w ++ stmts)%list
    /\ length prompts <= 1
    /\ match fst (_process_single_review rid uc pj w) with
       | Ok o =>
           (o = SUCCESS rid
            /\ exists s,
                filter is_update stmts = [UpdateSummary s rid]
                /\ table (snd (_process_single_review rid uc pj w))
                   = sql_update s rid (table w))
           \/ ((o = SKIPPED rid "already_present"
                \/ o = SKIPPED rid "non_high_risk"
                \/ o = FAILED rid "not_found")
               /\ prompts = [] /\ filter is_update stmts = []
               /\ table (snd (_process_single_review rid uc pj w))
                  = table w)
       | Raise e =>
           e = DbError "execute failed" /\ filter is_update stmts = []
           /\ table (snd (_process_single_review rid uc pj w)) = table w
       end.
Proof. apply process_effect. Qed.

(** ** Batch runs *)

Lemma fetchone_unique (t : Table) (r : Row) :
  NoDup (map review_id t) -> In r t -> fetchone t (review_id r) = Some r.
Proof.
  unfold fetchone. induction t as [|x t IH]; simpl; intros Hnd Hin; [easy|].
  inversion Hnd as [|? ? Hnotin Hnd']; subst.
  unfold matches at 1. destruct Hin as [-> | Hin].
  - now rewrite String.eqb_refl.
  - destruct (String.eqb_spec (review_id x) (review_id r)) as [E|E].
    + exfalso. apply Hnotin. rewrite E. now apply in_map.
    + now apply IH.
Qed.

(** With a healthy database, why the table is as it is after one review. *)
Lemma process_healthy_cases (rid : string) (uc pj : json) (w : World) :
  db_healthy ->
  (opt_truthy (stored_summary (table w) rid) = true
   /\ table (snd (_process_single_review rid uc pj w)) = table w)
  \/ (fetchone (table w) rid = None
      /\ table (snd (_process_single_review rid uc pj w)) = table w)
  \/ (exists r, fetchone (table w) rid = Some r
                /\ risk_level r <> "HIGH"
                /\ table (snd (_process_single_review rid uc pj w)) = table w)
  \/ (exists s, table (snd (_process_single_review rid uc pj w))
                = sql_update s rid (table w)).
Proof.
  intros H. unfold _process_single_review, bind.
  rewrite (existing_ok _ _ H).
  destruct (opt_truthy (stored_summary (table w) rid)) eqn:Es;
    [left; now split|].
  right.
  destruct (negb (truthy uc) || negb (truthy pj)).
  - rewrite (build_context_ok _ _ H). cbn [table logged].
    destruct (fetchone (table w) rid) as [r|] eqn:Ef; [|left; now split].
    right.
    destruct (String.eqb_spec (risk_level r) "HIGH") as [Eh|Eh].
    + right. rewrite Eh.
      match goal with
      | |- context [gate_generate_persist rid ?u ?p "HIGH" ?w0] =>
          destruct (gate_high rid u p w0 H) as (s & w1 & _ & _ & _ & G)
      end.
      rewrite G. now exists s.
    + left. exists r. repeat split; auto.
      unfold gate_generate_persist.
      destruct (String.eqb_spec (risk_level r) "HIGH"); [contradiction|].
      reflexivity.
  - right. right.
    destruct (gate_high rid uc pj (logged (SelectSummary rid) w) H)
      as (s & w1 & _ & _ & _ & G).
    rewrite G. now exists s.
Qed.

Lemma shrinks_refl (t : Table) :
  Forall2
    (fun r r' =>
       review_id r' = review_id r
       /\ (high_risk_missing_ai r' = true -> high_risk_missing_ai r = true))
    t t.
Proof. induction t; constructor; auto. Qed.

Lemma sql_update_shrinks (summary rid : string) (t : Table) :
  Forall2
    (fun r r' =>
       review_id r' = review_id r
       /\ (high_risk_missing_ai r' = true -> high_risk_missing_ai r = true))
    t (sql_update summary rid t).
Proof.
  unfold sql_update. induction t as [|r t IH]; simpl; constructor; auto.
  destruct (matches rid r); [|now split].
  split; [reflexivity|].
  unfold high_risk_missing_ai. simpl. rewrite andb_false_r. discriminate.
Qed.

(** No row becomes eligible through the processing of a review. *)
Lemma process_shrinks (rid : string) (uc pj : json) (w : World) :
  Forall2
    (fun r r' =>
       review_id r' = review_id r
       /\ (high_risk_missing_ai r' = true -> high_risk_missing_ai r = true))
    (table w) (table (snd (_process_single_review rid uc pj w))).
Proof.
  destruct (process_table rid uc pj w) as [-> | [_ [s ->]]].
  - apply shrinks_refl.
  - apply sql_update_shrinks.
Qed.

(** With unique ids and a healthy database, the processed review is not
    eligible afterwards. *)
Lemma process_clears (rid : string) (uc pj : json) (w : World) (r' : Row) :
  db_healthy ->
  NoDup (map review_id (table w)) ->
  In r' (table (snd (_process_single_review rid uc pj w))) ->
  review_id r' = rid ->
  high_risk_missing_ai r' = false.
Proof.
  intros H Hnd Hin Hid.
  destruct (process_healthy_cases rid uc pj w H)
    as [[Hs Ht] | [[Hf Ht] | [(r & Hf & Hr & Ht) | [s Ht]]]];
    rewrite Ht in Hin.
  - pose proof (fetchone_unique _ _ Hnd Hin) as Hu. rewrite Hid in Hu.
    unfold stored_summary in Hs. rewrite Hu in Hs.
    unfold high_risk_missing_ai.
    destruct (ai_risk_summary r'); [apply andb_false_r|discriminate].
  - pose proof (fetchone_unique _ _ Hnd Hin) as Hu. rewrite Hid in Hu.
    congruence.
  - pose proof (fetchone_unique _ _ Hnd Hin) as Hu. rewrite Hid in Hu.
    assert (r = r') by congruence. subst r.
    unfold high_risk_missing_ai.
    destruct (String.eqb_spec (risk_level r') "HIGH"); [contradiction|].
    reflexivity.
  - unfold sql_update in Hin. apply in_map_iff in Hin.
    destruct Hin as (x & Hx & _).
    destruct (matches rid x) eqn:Em.
    + subst r'. unfold high_risk_missing_ai. simpl. apply andb_false_r.
    + subst r'. unfold matches in Em. apply String.eqb_neq in Em.
      contradiction.
Qed.

Lemma shrinks_ids (t t' : Table) :
  Forall2
    (fun r r' =>
       review_id r' = review_id r
       /\ (high_risk_missing_ai r' = true -> high_risk_missing_ai r = true))
    t t' ->
  map review_id t' = map review_id t.
Proof.
  induction 1 as [|a b l l' [Hid _] _ IH]; simpl; auto. now rewrite Hid, IH.
Qed.

Lemma shrinks_in (t t' : Table) (r' : Row) :
  Forall2
    (fun r r' =>
       review_id r' = review_id r
       /\ (high_risk_missing_ai r' = true -> high_risk_missing_ai r = true))
    t t' ->
  In r' t' ->
  exists r, In r t /\ review_id r' = review_id r
            /\ (high_risk_missing_ai r' = true ->
                high_risk_missing_ai r = true).
Proof.
  induction 1 as [|a b l l' [Hid Hk] _ IH]; simpl; intros Hin; [easy|].
  destruct Hin as [-> | Hin].
  - exists a. auto.
  - destruct (IH Hin) as (r & Hr & Hrest). exists r. auto.
Qed.

Lemma shrinks_trans (t1 t2 t3 : Table) :
  Forall2
    (fun r r' =>
       review_id r' = review_id r
       /\ (high_risk_missing_ai r' = true -> high_risk_missing_ai r = true))
    t1 t2 ->
  Forall2
    (fun r r' =>
       review_id r' = review_id r
       /\ (high_risk_missing_ai r' = true -> high_risk_missing_ai r = true))
    t2 t3 ->
  Forall2
    (fun r r' =>
       review_id r' = review_id r
       /\ (high_risk_missing_ai r' = true -> high_risk_missing_ai r = true))
    t1 t3.
Proof.
  intros H12. revert t3.
  induction H12 as [|a b l l' [Hid Hk] _ IH]; intros t3 H23;
    inversion H23 as [|b' c m m' [Hid' Hk'] Hrest]; subst; constructor.
  - split; [congruence|auto].
  - now apply IH.
Qed.

(** The loop leaves none of the reviews it went through eligible. *)
Lemma batch_loop_clears (rows : list Row) (acc : list Outcome) (w : World) :
  db_healthy ->
  NoDup (map review_id (table w)) ->
  Forall2
    (fun r r' =>
       review_id r' = review_id r
       /\ (high_risk_missing_ai r' = true -> high_risk_missing_ai r = true))
    (table w) (table (snd (batch_loop rows acc w)))
  /\ forall r', In r' (table (snd (batch_loop rows acc w))) ->
                In (review_id r') (map review_id rows) ->
                high_risk_missing_ai r' = false.
Proof.
  intros H. revert acc w.
  induction rows as [|row rows IH]; intros acc w Hnd; simpl.
  - split; [apply shrinks_refl|]. intros r' _ [].
  - unfold bind.
    pose proof (process_shrinks (review_id row) JNull JNull w) as Hs.
    pose proof (fun r' => process_clears (review_id row) JNull JNull w r'
                            H Hnd) as Hc.
    destruct (process_total (review_id row) JNull JNull w H)
      as (o & w1 & E & _).
    rewrite E in *. simpl in Hs, Hc.
    assert (Hnd1 : NoDup (map review_id (table w1)))
      by (now rewrite (shrinks_ids _ _ Hs)).
    destruct (IH (acc ++ [o])%list w1 Hnd1) as [Hs' Hc'].
    split; [eapply shrinks_trans; eauto|].
    intros r' Hin [Hid | Hid]; [|now apply Hc'].
    destruct (shrinks_in _ _ r' Hs' Hin) as (r1 & Hin1 & Hid1 & Hk1).
    destruct (high_risk_missing_ai r') eqn:Ee; [|reflexivity].
    rewrite <- (Hk1 eq_refl). apply Hc; [exact Hin1|congruence].
Qed.

Lemma batch_mode_clears (w : World) :
  db_healthy ->
  NoDup (map review_id (table w)) ->
  filter high_risk_missing_ai (table (snd (batch_mode w))) = [].
Proof.
  intros H Hnd.
  destruct (batch_loop_clears (filter high_risk_missing_ai (table w)) []
              (logged ListHighRiskMissingAi w) H Hnd) as [Hs Hc].
  assert (Et : table (snd (batch_mode w))
               = table (snd (batch_loop
                               (filter high_risk_missing_ai (table w)) []
                               (logged ListHighRiskMissingAi w)))).
  { unfold batch_mode, list_high_risk_reviews_missing_ai, bind.
    rewrite (db_execute_ok _ _ H). simpl.
    destruct (batch_loop (filter high_risk_missing_ai (table w)) []
                (logged ListHighRiskMissingAi w)) as [[outs|e] w1];
      reflexivity. }
  rewrite Et.
  match goal with |- filter _ ?l = [] => remember l as final end.
  assert (Hall : forall r', In r' final -> high_risk_missing_ai r' = false).
  { intros r' Hin.
    destruct (high_risk_missing_ai r') eqn:Ee; [|reflexivity].
    rewrite <- Ee. apply Hc; [exact Hin|].
    destruct (shrinks_in _ _ r' Hs Hin) as (r0 & Hin0 & Hid0 & Hk0).
    rewrite Hid0. apply in_map. apply filter_In. split; auto. }
  clear - Hall. induction final as [|x l IH]; simpl; auto.
  rewrite (Hall x) by now left. apply IH. intros r' Hin. apply Hall.
  now right.
Qed.

Lemma handler_batch (event : option Event) (w : World) :
  single_mode event = false -> handler event w = batch_mode w.
Proof.
  unfold single_mode, handler. intros Hno.
  destruct (ev_review_id (or_empty event)) as [rid|]; auto.
  simpl in Hno. now rewrite Hno.
Qed.

(** X3 (batch completeness): after a batch run on a healthy database over
    a table with unique review ids, no review is left that has
    [risk_level] [HIGH] and a null summary. *)
Theorem batch_completeness (event : option Event) (w : World) :
  db_healthy ->
  NoDup (map review_id (table w)) ->
  single_mode event = false ->
  filter high_risk_missing_ai (table (snd (handler event w))) = [].
Proof.
  intros H Hnd Hno. rewrite (handler_batch _ _ Hno).
  now apply batch_mode_clears.
Qed.

(** X4 (a second batch has nothing to do): run again right after a batch
    run, on a healthy database over unique review ids, [handler] discovers
    no review: it returns the envelope with an empty [processed] list,
    having sent its discovery query only. *)
Theorem second_batch_is_empty (event : option Event) (w : World) :
  db_healthy ->
  NoDup (map review_id (table w)) ->
  single_mode event = false ->
  handler event (snd (handler event w))
  = (Ok (Batch "SUCCESS" []),
     logged ListHighRiskMissingAi (snd (handler event w))).
Proof.
  intros H Hnd Hno. rewrite !(handler_batch _ _ Hno).
  unfold batch_mode at 1, list_high_risk_reviews_missing_ai, bind.
  rewrite (db_execute_ok _ _ H). simpl.
  now rewrite (batch_mode_clears w H Hnd).
Qed.

Lemma batch_loop_prompts (rows : list Row) (acc : list Outcome) (w : World) :
  exists prompts,
    gen_log (snd (batch_loop rows acc w)) = (gen_log w ++ prompts)%list
    /\ length prompts <= length rows.
Proof.
  revert acc w. induction rows as [|row rows IH]; intros acc w; simpl.
  - exists []. now rewrite app_nil_r.
  - unfold bind.
    destruct (process_effect (review_id row) JNull JNull w)
      as (p1 & _ & Eg & _ & Hl & _).
    destruct (_process_single_review (review_id row) JNull JNull w)
      as [[o|e] w1]; simpl in *.
    + destruct (IH (acc ++ [o])%list w1) as (p2 & Eg2 & Hl2).
      exists (p1 ++ p2)%list. rewrite Eg2, Eg, <- app_assoc.
      split; auto. rewrite length_app. lia.
    + exists p1. split; auto. lia.
Qed.

(** X5 (generation budget): one invocation of [handler] only appends to
    the prompts sent, at most one in single-review mode and at most one
    per discovered review in batch mode, whatever the database and the
    backend do. *)
Theorem prompts_within_budget (event : option Event) (w : World) :
  exists prompts,
    gen_log (snd (handler event w)) = (gen_log w ++ prompts)%list
    /\ length prompts
       <= (if single_mode event then 1
           else length (filter high_risk_missing_ai (table w))).
Proof.
  destruct (single_mode event) eqn:Em.
  - unfold handler, single_mode in *.
    destruct (ev_review_id (or_empty event)) as [rid|]; [|discriminate].
    simpl in Em. rewrite Em. unfold bind.
    destruct (process_effect rid (ev_user_context (or_empty event))
                (ev_policy_json (or_empty event)) w)
      as (p1 & _ & Eg & _ & Hl & _).
    destruct (_process_single_review rid (ev_user_context (or_empty event))
                (ev_policy_json (or_empty event)) w) as [[o|e] w1];
      simpl in *; exists p1; auto.
  - rewrite (handler_batch _ _ Em).
    unfold batch_mode, list_high_risk_reviews_missing_ai, bind, db_execute.
    destruct (db_raises w ListHighRiskMissingAi); simpl.
    + exists []. rewrite app_nil_r. split; auto. simpl. lia.
    + destruct (batch_loop_prompts (filter high_risk_missing_ai (table w)) []
                  (logged ListHighRiskMissingAi w)) as (p & Eg & Hl).
      destruct (batch_loop (filter high_risk_missing_ai (table w)) []
                  (logged ListHighRiskMissingAi w)) as [[outs|e] w1];
        simpl in *; exists p; auto.
Qed.

(** ** Writing and reading back *)

Lemma stored_summary_after_update (summary rid : string) (t : Table) :
  stored_summary (sql_update summary rid t) rid
  = if existsb (matches rid) t then Some summary else None.
Proof.
  unfold stored_summary, fetchone, sql_update.
  induction t as [|r t IH]; simpl; auto.
  destruct (matches rid r) eqn:E; simpl.
  - unfold matches in *. simpl. now rewrite E.
  - now rewrite E.
Qed.

Lemma sql_update_twice (s1 s2 rid : string) (t : Table) :
  sql_update s2 rid (sql_update s1 rid t) = sql_update s2 rid t.
Proof.
  unfold sql_update. rewrite map_map. apply map_ext. intros r.
  destruct (matches rid r) eqn:E.
  - unfold matches in *. simpl. now rewrite E.
  - now rewrite E.
Qed.

Lemma sql_update_commute (s1 s2 rid1 rid2 : string) (t : Table) :
  rid1 <> rid2 ->
  sql_update s1 rid1 (sql_update s2 rid2 t)
  = sql_update s2 rid2 (sql_update s1 rid1 t).
Proof.
  intros Hne. unfold sql_update. rewrite !map_map. apply map_ext. intros r.
  unfold matches.
  destruct (String.eqb_spec (review_id r) rid1) as [E1|E1];
    destruct (String.eqb_spec (review_id r) rid2) as [E2|E2]; simpl.
  - congruence.
  - destruct (String.eqb_spec (review_id r) rid1); [|contradiction].
    destruct (String.eqb_spec (review_id r) rid2); [contradiction|].
    reflexivity.
  - destruct (String.eqb_spec (review_id r) rid1); [contradiction|].
    destruct (String.eqb_spec (review_id r) rid2); [|contradiction].
    reflexivity.
  - destruct (String.eqb_spec (review_id r) rid1); [contradiction|].
    destruct (String.eqb_spec (review_id r) rid2); [contradiction|].
    reflexivity.
Qed.

(** X6 (write, then read back): on a healthy database,
    [_persist_summary] followed by [_existing_ai_summary] for the same
    review returns the summary just written when the review is stored, and
    [None] when it is not, the [UPDATE] having matched no row. *)
Theorem persist_then_read (rid summary : string) (w : World) :
  db_healthy ->
  (_persist_summary rid summary ;;; _existing_ai_summary rid) w
  = (Ok (if existsb (matches rid) (table w) then Some summary else None),
     mkWorld (sql_update summary rid (table w)) (gen_log w)
             (db_log w ++ [UpdateSummary summary rid; SelectSummary rid])).
Proof.
  intros H. unfold bind at 1. rewrite (persist_ok _ _ _ H).
  rewrite (existing_ok _ _ H). simpl.
  rewrite stored_summary_after_update. unfold logged. simpl.
  now rewrite <- app_assoc.
Qed.

(** X7 (how writes compose): [_persist_summary] has no guard of its own.
    On a healthy database two writes for the same review leave the table
    as the second alone would, and writes for two different reviews give
    the same table in either order. *)
Theorem persist_composes (rid1 rid2 s1 s2 : string) (w : World) :
  db_healthy ->
  table (snd ((_persist_summary rid1 s1 ;;; _persist_summary rid1 s2) w))
  = table (snd (_persist_summary rid1 s2 w))
  /\ (rid1 <> rid2 ->
      table (snd ((_persist_summary rid1 s1 ;;; _persist_summary rid2 s2) w))
      = table (snd ((_persist_summary rid2 s2 ;;; _persist_summary rid1 s1)
                      w))).
Proof.
  intros H. unfold bind.
  repeat (rewrite (persist_ok _ _ _ H); simpl). split.
  - apply sql_update_twice.
  - intros Hne. apply sql_update_commute. congruence.
Qed.

(** ** Stripped summaries *)

Lemma lstrip_head (s : string) : is_space_opt (first_char (lstrip s)) = false.
Proof.
  induction s as [|c s IH]; simpl; auto.
  destruct (is_space c) eqn:E; auto.
Qed.

Lemma lstrip_fixed (s : string) :
  is_space_opt (first_char s) = false -> lstrip s = s.
Proof. destruct s as [|c s]; simpl; auto. now intros ->. Qed.

Lemma rstrip_head (s : string) :
  is_space_opt (first_char s) = false -> first_char (rstrip s) = first_char s.
Proof.
  destruct s as [|c s]; simpl; auto. intros E.
  destruct (rstrip s); [now rewrite E|reflexivity].
Qed.

Lemma rstrip_idem (s : string) : rstrip (rstrip s) = rstrip s.
Proof.
  induction s as [|c s IH]; simpl; auto.
  destruct (rstrip s) as [|d r] eqn:E.
  - destruct (is_space c) eqn:Ec; simpl; auto. now rewrite Ec.
  - simpl in *. now rewrite IH.
Qed.

Lemma rstrip_last (s : string) : is_space_opt (last_char (rstrip s)) = false.
Proof.
  induction s as [|c s IH]; simpl; auto.
  destruct (rstrip s) as [|d r] eqn:E.
  - destruct (is_space c) eqn:Ec; simpl; auto.
  - exact IH.
Qed.

Lemma strip_idem (s : string) : strip (strip s) = strip s.
Proof.
  unfold strip.
  rewrite (lstrip_fixed (rstrip (lstrip s))).
  - apply rstrip_idem.
  - rewrite rstrip_head; apply lstrip_head.
Qed.

Lemma all_space_cons (c : ascii) (s : string) :
  all_space (String c s) = is_space c && all_space s.
Proof. reflexivity. Qed.

Lemma lstrip_empty_iff (s : string) : lstrip s = "" <-> all_space s = true.
Proof.
  induction s as [|c s IH]; [now split|].
  rewrite all_space_cons. simpl. destruct (is_space c); simpl; auto.
  split; discriminate.
Qed.

Lemma rstrip_empty_iff (s : string) : rstrip s = "" <-> all_space s = true.
Proof.
  induction s as [|c s IH]; [now split|].
  rewrite all_space_cons. simpl.
  destruct (rstrip s) as [|d r].
  - destruct IH as [IH _]. rewrite (IH eq_refl), andb_true_r.
    destruct (is_space c); split; auto; discriminate.
  - split; [discriminate|]. intros Ha. apply andb_true_iff in Ha.
    destruct Ha as [_ Ha]. apply IH in Ha. discriminate.
Qed.

Lemma all_space_lstrip (s : string) : all_space (lstrip s) = all_space s.
Proof.
  induction s as [|c s IH]; auto.
  rewrite all_space_cons. simpl. destruct (is_space c) eqn:E; simpl; auto.
  now rewrite all_space_cons, E.
Qed.

Lemma strip_empty_iff (s : string) : strip s = "" <-> all_space s = true.
Proof.
  unfold strip. rewrite rstrip_empty_iff. now rewrite all_space_lstrip.
Qed.

(** X8 (summaries come back trimmed): a summary [generate_ai_summary]
    returns has no white space at either end; stripping it again changes
    nothing. *)
Theorem generated_summary_is_trimmed (uc pj : json) (w : World) :
  match fst (generate_ai_summary uc pj w) with
  | Ok s =>
      strip s = s
      /\ is_space_opt (first_char s) = false
      /\ is_space_opt (last_char s) = false
  | Raise _ => True
  end.
Proof.
  unfold generate_ai_summary. destruct client as [cl|]; simpl; auto.
  destruct (cl (gen_log w) (request_contents uc pj)) as [e|[|[t|]]];
    simpl; auto.
  destruct (str_truthy t); simpl; auto.
  repeat split.
  - apply strip_idem.
  - unfold strip. rewrite rstrip_head; apply lstrip_head.
  - apply rstrip_last.
Qed.

(** A stored [HIGH] review without a summary, on a healthy database: the
    contexts used, the summary stored and the prompts sent. *)
Lemma process_eligible_eq (rid : string) (uc pj : json) (w : World)
    (r : Row) :
  db_healthy ->
  fetchone (table w) rid = Some r ->
  risk_level r = "HIGH" ->
  opt_truthy (ai_risk_summary r) = false ->
  forall u p,
    (u, p) = (if truthy uc && truthy pj then (uc, pj)
              else (user_context_of r, policy_json_of r)) ->
    fst (_process_single_review rid uc pj w) = Ok (SUCCESS rid)
    /\ table (snd (_process_single_review rid uc pj w))
       = sql_update (reply_summary (gen_log w) u p) rid (table w)
    /\ gen_log (snd (_process_single_review rid uc pj w))
       = (gen_log w ++ prompts_sent u p)%list.
Proof.
  intros H Hf Hrisk Hsum u p Hup.
  assert (G : forall w0,
             table w0 = table w -> gen_log w0 = gen_log w ->
             fst (gate_generate_persist rid u p "HIGH" w0) = Ok (SUCCESS rid)
             /\ table (snd (gate_generate_persist rid u p "HIGH" w0))
                = sql_update (reply_summary (gen_log w) u p) rid (table w)
             /\ gen_log (snd (gate_generate_persist rid u p "HIGH" w0))
                = (gen_log w ++ prompts_sent u p)%list).
  { intros w0 Ht Hg. unfold gate_generate_persist. simpl. unfold bind.
    rewrite summary_or_fallback_eq, (persist_ok _ _ _ H). simpl.
    now rewrite Ht, Hg. }
  unfold _process_single_review, bind. rewrite (existing_ok _ _ H).
  unfold stored_summary. rewrite Hf, Hsum. cbv beta iota.
  destruct (truthy uc) eqn:Eu; destruct (truthy pj) eqn:Ep; simpl in *;
    inversion Hup; subst u p;
    try (rewrite (build_context_ok _ _ H); cbn [table logged];
         cbv beta iota; rewrite Hf, Hrisk);
    now apply G.
Qed.

Lemma reply_summary_empty_iff (history : list string) (uc pj : json) :
  reply_summary history uc pj = "" <-> blank_reply history uc pj = true.
Proof.
  unfold reply_summary, blank_reply.
  destruct client as [cl|]; [|split; discriminate].
  destruct (cl history (request_contents uc pj)) as [e|[|[t|]]];
    try (split; discriminate).
  destruct (str_truthy t); simpl; [apply strip_empty_iff|split; discriminate].
Qed.

(** X9 (when an empty summary is stored): for a stored [HIGH] review
    without a summary, on a healthy database, the summary stored by the
    orchestrator is the empty string exactly when the backend answered the
    request with a non-empty text made of white space only.  The contexts
    of the request are the inline ones when both are non-empty, else those
    built from the stored row. *)
Theorem empty_summary_iff_blank_reply (rid : string) (uc pj : json)
    (w : World) (r : Row) :
  db_healthy ->
  fetchone (table w) rid = Some r ->
  risk_level r = "HIGH" ->
  opt_truthy (ai_risk_summary r) = false ->
  stored_summary (table (snd (_process_single_review rid uc pj w))) rid
  = Some ""
  <-> (if truthy uc && truthy pj then blank_reply (gen_log w) uc pj
       else blank_reply (gen_log w) (user_context_of r) (policy_json_of r))
      = true.
Proof.
  intros H Hf Hrisk Hsum.
  destruct (truthy uc && truthy pj) eqn:E.
  - destruct (process_eligible_eq rid uc pj w r H Hf Hrisk Hsum uc pj)
      as (_ & Ht & _); [now rewrite E|].
    rewrite Ht, (stored_summary_sql_update _ _ _ _ Hf).
    rewrite <- reply_summary_empty_iff. split; congruence.
  - destruct (process_eligible_eq rid uc pj w r H Hf Hrisk Hsum
                (user_context_of r) (policy_json_of r))
      as (_ & Ht & _); [now rewrite E|].
    rewrite Ht, (stored_summary_sql_update _ _ _ _ Hf).
    rewrite <- reply_summary_empty_iff. split; congruence.
Qed.

(** X10 (by reference or inline): for a stored [HIGH] review on a healthy
    database, calling the orchestrator with no context gives the same
    outcome, the same table and the same prompts as calling it with the
    two dictionaries [_build_context_from_db] makes of the stored row. *)
Theorem by_reference_as_inline (rid : string) (w : World) (r : Row) :
  db_healthy ->
  fetchone (table w) rid = Some r ->
  risk_level r = "HIGH" ->
  fst (_process_single_review rid JNull JNull w)
  = fst (_process_single_review rid (user_context_of r) (policy_json_of r) w)
  /\ table (snd (_process_single_review rid JNull JNull w))
     = table (snd (_process_single_review rid (user_context_of r)
                     (policy_json_of r) w))
  /\ gen_log (snd (_process_single_review rid JNull JNull w))
     = gen_log (snd (_process_single_review rid (user_context_of r)
                       (policy_json_of r) w)).
Proof.
  intros H Hf Hrisk.
  destruct (opt_truthy (ai_risk_summary r)) eqn:Hsum.
  - assert (Hs : opt_truthy (stored_summary (table w) rid) = true)
      by (unfold stored_summary; now rewrite Hf).
    rewrite !(already_present_skipped _ _ _ _ H Hs). auto.
  - destruct (process_eligible_eq rid JNull JNull w r H Hf Hrisk Hsum
                (user_context_of r) (policy_json_of r) eq_refl)
      as (E1 & T1 & G1).
    destruct (process_eligible_eq rid (user_context_of r) (policy_json_of r)
                w r H Hf Hrisk Hsum
                (user_context_of r) (policy_json_of r) eq_refl)
      as (E2 & T2 & G2).
    rewrite E1, E2, T1, T2, G1, G2. auto.
Qed.

End Handler.

(** ** The theorems at work

    Each theorem above that has premises is applied here to sample data;
    the examples after them run the handler where a property one could
    expect of it does not hold. *)

Lemma no_faults_healthy : db_healthy no_faults.
Proof. intros w s. reflexivity. Qed.

(** C1: [R1] is processed twice with a backend that answers
    ["Explanation X."]: the first call stores that text, the second is
    skipped. *)
Lemma enrichment_idempotent_witness :
  db_healthy no_faults
  /\ fetchone (table (world_of [R1])) "R1" = Some R1
  /\ risk_level R1 = "HIGH"
  /\ opt_truthy (ai_risk_summary R1) = false
  /\ exists w1 w2,
      _process_single_review keys_dumps
        (Some (client_const "Explanation X.")) no_faults
        "R1" JNull JNull (world_of [R1])
      = (Ok (SUCCESS "R1"), w1)
      /\ table w1 = [set_summary "Explanation X." R1]
      /\ stored_summary (table w1) "R1" = Some "Explanation X."
      /\ _process_single_review keys_dumps
           (Some (client_const "Explanation X.")) no_faults
           "R1" JNull JNull w1
         = (Ok (SKIPPED "R1" "already_present"), w2)
      /\ table w2 = table w1
      /\ gen_log w2 = gen_log w1
      /\ stored_summary (table w2) "R1" = Some "Explanation X.".
Proof.
  split; [exact no_faults_healthy|].
  split; [reflexivity|]. split; [reflexivity|]. split; [reflexivity|].
  destruct (enrichment_idempotent keys_dumps
              (Some (client_const "Explanation X.")) no_faults
              "R1" JNull JNull (world_of [R1]) R1
              no_faults_healthy eq_refl eq_refl eq_refl)
    as (s & w1 & E & Ht & Hs & Hk).
  assert (Es : s = "Explanation X.").
  { vm_compute in E. inversion E; subst w1. vm_compute in Hs.
    now inversion Hs. }
  subst s.
  destruct Hk as (w2 & E2 & Ht2 & Hg2 & Hs2); [discriminate|].
  exists w1, w2. split; [exact E|].
  split; [vm_compute in E; inversion E; reflexivity|].
  split; [exact Hs|]. split; [exact E2|]. split; [exact Ht2|].
  split; [exact Hg2|exact Hs2].
Defined.

(** C1: two calls in a row are not [SUCCESS] then [SKIPPED] for every
    review.  For the [LOW] review [R2] the first call is already a skip.
    For the [HIGH] review [R1] and a backend whose first answer is a single
    space, the first call stores the empty string and the second call is
    not skipped: it answers [SUCCESS] again and replaces the summary. *)
Lemma twice_not_success_then_skipped :
  (fetchone (table (world_of [R2])) "R2" = Some R2
   /\ fst (_process_single_review keys_dumps
             (Some (client_const "Explanation X.")) no_faults
             "R2" JNull JNull (world_of [R2]))
      = Ok (SKIPPED "R2" "non_high_risk")
   /\ fst (_process_single_review keys_dumps
             (Some (client_const "Explanation X.")) no_faults
             "R2" JNull JNull (world_of [R2]))
      <> Ok (SUCCESS "R2"))
  /\ fetchone (table (world_of [R1])) "R1" = Some R1
  /\ fst (_process_single_review keys_dumps
            (Some (client_blank_then "Explanation X.")) no_faults
            "R1" JNull JNull (world_of [R1]))
     = Ok (SUCCESS "R1")
  /\ stored_summary
       (table (snd (_process_single_review keys_dumps
                      (Some (client_blank_then "Explanation X.")) no_faults
                      "R1" JNull JNull (world_of [R1])))) "R1"
     = Some ""
  /\ fst (_process_single_review keys_dumps
            (Some (client_blank_then "Explanation X.")) no_faults
            "R1" JNull JNull
            (snd (_process_single_review keys_dumps
                    (Some (client_blank_then "Explanation X.")) no_faults
                    "R1" JNull JNull (world_of [R1]))))
     = Ok (SUCCESS "R1")
  /\ fst (_process_single_review keys_dumps
            (Some (client_blank_then "Explanation X.")) no_faults
            "R1" JNull JNull
            (snd (_process_single_review keys_dumps
                    (Some (client_blank_then "Explanation X.")) no_faults
                    "R1" JNull JNull (world_of [R1]))))
     <> Ok (SKIPPED "R1" "already_present")
  /\ stored_summary
       (table (snd (_process_single_review keys_dumps
                      (Some (client_blank_then "Explanation X.")) no_faults
                      "R1" JNull JNull
                      (snd (_process_single_review keys_dumps
                              (Some (client_blank_then "Explanation X."))
                              no_faults "R1" JNull JNull
                              (world_of [R1])))))) "R1"
     = Some "Explanation X.".
Proof. vm_compute. repeat split; discriminate. Qed.







(** C6: the batch over [R1] and [R5] when the database refuses the
    [UPDATE] of [R5]. *)
Lemma batch_exception_propagates_witness :
  opt_truthy (ev_review_id (or_empty None)) = false
  /\ list_high_risk_reviews_missing_ai (write_fails_for "R5")
       (world_of [R1; R5])
     = (Ok ([R1] ++ R5 :: [])%list,
        logged ListHighRiskMissingAi (world_of [R1; R5]))
  /\ batch_loop keys_dumps None (write_fails_for "R5") [R1] []
       (logged ListHighRiskMissingAi (world_of [R1; R5]))
     = (Ok [SUCCESS "R1"],
        snd (batch_loop keys_dumps None (write_fails_for "R5") [R1] []
               (logged ListHighRiskMissingAi (world_of [R1; R5]))))
  /\ _process_single_review keys_dumps None (write_fails_for "R5")
       (review_id R5) JNull JNull
       (snd (batch_loop keys_dumps None (write_fails_for "R5") [R1] []
               (logged ListHighRiskMissingAi (world_of [R1; R5]))))
     = (Raise (DbError "execute failed"),
        snd (_process_single_review keys_dumps None (write_fails_for "R5")
               (review_id R5) JNull JNull
               (snd (batch_loop keys_dumps None (write_fails_for "R5")
                       [R1] []
                       (logged ListHighRiskMissingAi
                               (world_of [R1; R5]))))))
  /\ handler keys_dumps None (write_fails_for "R5") None (world_of [R1; R5])
     = (Raise (DbError "execute failed"),
        snd (_process_single_review keys_dumps None (write_fails_for "R5")
               (review_id R5) JNull JNull
               (snd (batch_loop keys_dumps None (write_fails_for "R5")
                       [R1] []
                       (logged ListHighRiskMissingAi
                               (world_of [R1; R5])))))).
Proof.
  split; [reflexivity|]. split; [reflexivity|].
  split; [reflexivity|]. split; [reflexivity|].
  apply (batch_exception_propagates keys_dumps None (write_fails_for "R5")
           None (world_of [R1; R5])
           (logged ListHighRiskMissingAi (world_of [R1; R5]))
           (snd (batch_loop keys_dumps None (write_fails_for "R5") [R1] []
                   (logged ListHighRiskMissingAi (world_of [R1; R5]))))
           _ [R1] [] R5 [SUCCESS "R1"] (DbError "execute failed")).
  - reflexivity.
  - reflexivity.
  - reflexivity.
  - reflexivity.
Defined.

(** C6: the batch over [R1] and [R5] when the database refuses the
    [UPDATE] of [R1]: [handler] raises, returns no envelope, records no
    [FAILED] outcome for [R1], and [R5] is left without a summary. *)
Lemma batch_aborted_by_write_error :
  filter high_risk_missing_ai (table (world_of [R1; R5])) = [R1; R5]
  /\ handler keys_dumps (Some (client_const "Explanation X."))
       (write_fails_for "R1") None (world_of [R1; R5])
     = (Raise (DbError "execute failed"),
        mkWorld [R1; R5]
          [request_contents keys_dumps
             (JDict [("user_id", JStr "u1"); ("user_name", JStr "alice");
                     ("department", JStr "Unknown");
                     ("role", JStr "AdministratorAccess")])
             (JDict [("policy_arn", JStr admin_arn);
                     ("policy_name", JStr "AdministratorAccess")])]
          [ListHighRiskMissingAi; SelectSummary "R1";
           FetchReviewContext "R1"])
  /\ ~ (exists outs w',
          handler keys_dumps (Some (client_const "Explanation X."))
            (write_fails_for "R1") None (world_of [R1; R5])
          = (Ok (Batch "SUCCESS" outs), w')).
Proof.
  split; [reflexivity|]. split; [reflexivity|].
  intros (outs & w' & E). vm_compute in E. discriminate.
Qed.

(** C7: a backend text that ends in a line break is not returned as it
    is: the line break is stripped. *)
Lemma generated_text_is_stripped :
  generate_ai_summary keys_dumps
    (Some (client_const ("Explanation X." ++ nl)))
    inline_user inline_policy (world_of [R1])
  = (Ok "Explanation X.",
     prompted (request_contents keys_dumps inline_user inline_policy)
              (world_of [R1]))
  /\ fst (generate_ai_summary keys_dumps
            (Some (client_const ("Explanation X." ++ nl)))
            inline_user inline_policy (world_of [R1]))
     <> Ok ("Explanation X." ++ nl).
Proof. vm_compute. split; [reflexivity|discriminate]. Qed.




(** ** Scenarios *)

(** Scenario A: [R1], [HIGH], no summary, the backend answers
    ["Explanation X."]. *)
Example scenario_A :
  handler keys_dumps (Some (client_const "Explanation X.")) no_faults
    (Some (mkEvent (Some "R1") JNull JNull)) (world_of [R1])
  = (Ok (Single (SUCCESS "R1")),
     mkWorld [set_summary "Explanation X." R1]
       [request_contents keys_dumps
          (JDict [("user_id", JStr "u1"); ("user_name", JStr "alice");
                  ("department", JStr "Unknown");
                  ("role", JStr "AdministratorAccess")])
          (JDict [("policy_arn", JStr admin_arn);
                  ("policy_name", JStr "AdministratorAccess")])]
       [SelectSummary "R1"; FetchReviewContext "R1";
        UpdateSummary "Explanation X." "R1"]).
Proof. reflexivity. Qed.

(** Scenario C: [R3] already has the summary ["already there"]. *)
Example scenario_C :
  handler keys_dumps (Some (client_const "Explanation X.")) no_faults
    (Some (mkEvent (Some "R3") JNull JNull)) (world_of [R3])
  = (Ok (Single (SKIPPED "R3" "already_present")),
     mkWorld [R3] [] [SelectSummary "R3"]).
Proof. reflexivity. Qed.

(** Scenario E: a batch over [R1], [R2] and [R5] with no client: outcomes
    for [R1] and [R5] only, both stored with the fallback sentence. *)
Example scenario_E :
  handler keys_dumps None no_faults None (world_of [R1; R2; R5])
  = (Ok (Batch "SUCCESS" [SUCCESS "R1"; SUCCESS "R5"]),
     mkWorld [set_summary FALLBACK_SUMMARY R1; R2;
              set_summary FALLBACK_SUMMARY R5]
       []
       [ListHighRiskMissingAi;
        SelectSummary "R1"; FetchReviewContext "R1";
        UpdateSummary FALLBACK_SUMMARY "R1";
        SelectSummary "R5"; FetchReviewContext "R5";
        UpdateSummary FALLBACK_SUMMARY "R5"]).
Proof. reflexivity. Qed.

(** ** The statement splitter of the migration script *)

Lemma split_on_nonempty (sep : ascii) (s : string) : split_on sep s <> [].
Proof.
  induction s as [|c s IH]; simpl; [discriminate|].
  destruct (Ascii.eqb c sep); [discriminate|].
  destruct (split_on sep s); discriminate.
Qed.

Lemma split_on_app (sep : ascii) (a b : string) :
  split_on sep (a ++ String sep b) = (split_on sep a ++ split_on sep b)%list.
Proof.
  induction a as [|c a IH]; simpl.
  - now rewrite Ascii.eqb_refl.
  - destruct (Ascii.eqb c sep); [now rewrite IH|].
    rewrite IH. pose proof (split_on_nonempty sep a) as Hne.
    destruct (split_on sep a); [contradiction|reflexivity].
Qed.

Lemma split_on_no_sep (sep : ascii) (s piece : string) :
  In piece (split_on sep s) -> ~ In sep (list_ascii_of_string piece).
Proof.
  revert piece. induction s as [|c s IH]; simpl; intros piece Hin.
  - destruct Hin as [<- | []]. simpl. tauto.
  - destruct (Ascii.eqb_spec c sep) as [E|E].
    + destruct Hin as [<- | Hin]; [simpl; tauto|now apply IH].
    + destruct (split_on sep s) as [|p rest]; simpl in Hin.
      * destruct Hin as [<- | []]. simpl. intuition congruence.
      * destruct Hin as [<- | Hin].
        -- simpl. intros [Hc | Hc]; [congruence|].
           revert Hc. apply IH. now left.
        -- apply IH. now right.
Qed.

Lemma lstrip_chars (s : string) (c : ascii) :
  In c (list_ascii_of_string (lstrip s)) -> In c (list_ascii_of_string s).
Proof.
  induction s as [|d s IH]; simpl; auto.
  destruct (is_space d); simpl; auto.
Qed.

Lemma rstrip_chars (s : string) (c : ascii) :
  In c (list_ascii_of_string (rstrip s)) -> In c (list_ascii_of_string s).
Proof.
  induction s as [|d s IH]; simpl; auto.
  destruct (rstrip s) as [|e r].
  - destruct (is_space d); simpl; tauto.
  - simpl in *. tauto.
Qed.

Lemma strip_chars (s : string) (c : ascii) :
  In c (list_ascii_of_string (strip s)) -> In c (list_ascii_of_string s).
Proof. intros H. apply lstrip_chars, rstrip_chars, H. Qed.

(** The loop runs the stripped, non-empty pieces in order and stops at the
    first one the server refuses. *)
Lemma execute_each_prefix (execute_raises : list string -> string -> bool)
    (pieces : list string) (cur : list string) :
  exists pre post,
    filter str_truthy (map strip pieces) = (pre ++ post)%list
    /\ snd (execute_each execute_raises pieces cur) = (cur ++ pre)%list
    /\ match fst (execute_each execute_raises pieces cur) with
       | Ok _ => post = []
       | Raise e =>
           e = DbError "execute failed"
           /\ exists st rest,
               post = st :: rest
               /\ execute_raises (cur ++ pre)%list st = true
       end.
Proof.
  revert cur. induction pieces as [|x pieces IH]; intros cur; simpl.
  - exists [], []. simpl. rewrite app_nil_r. repeat split.
  - destruct (str_truthy (strip x)) eqn:E; simpl; [|apply IH].
    unfold cur_execute.
    destruct (execute_raises cur (strip x)) eqn:Er; simpl.
    + exists [], (strip x :: filter str_truthy (map strip pieces)).
      rewrite app_nil_r. repeat split; eauto.
    + destruct (IH (cur ++ [strip x])%list) as (pre & post & Hf & Hs & Hm).
      exists (strip x :: pre), post. rewrite Hf, Hs, <- app_assoc.
      repeat split; auto.
      destruct (fst (execute_each execute_raises pieces
                       (cur ++ [strip x])%list)); auto.
      destruct Hm as (He & st & rest & Hp & Hr). split; auto.
      exists st, rest. split; auto. now rewrite <- app_assoc in Hr.
Qed.

Lemma execute_each_app (execute_raises : list string -> string -> bool)
    (l1 l2 : list string) (cur : list string) :
  execute_each execute_raises (l1 ++ l2) cur
  = match execute_each execute_raises l1 cur with
    | (Ok _, cur') => execute_each execute_raises l2 cur'
    | (Raise e, cur') => (Raise e, cur')
    end.
Proof.
  revert cur. induction l1 as [|x l1 IH]; intros cur; simpl; auto.
  destruct (negb (str_truthy (strip x))); auto.
  destruct (cur_execute execute_raises (strip x) cur) as [[[]|e] cur'];
    auto.
Qed.

(** X11 (statements run in order, up to the first refusal): whatever the
    server refuses, [_execute_statements] has run, after those run before,
    a prefix of the statements of the script: its pieces between
    semicolons, stripped, the empty ones dropped, in order.  It returns
    when the prefix is the whole list and raises when the server refuses
    the next statement, which is then not run, nor any after it. *)
Theorem execute_statements_prefix
    (execute_raises : list string -> string -> bool)
    (sql_blob : string) (cur : list string) :
  exists pre post,
    statements_of sql_blob = (pre ++ post)%list
    /\ snd (_execute_statements execute_raises sql_blob cur)
       = (cur ++ pre)%list
    /\ match fst (_execute_statements execute_raises sql_blob cur) with
       | Ok _ => post = []
       | Raise e =>
           e = DbError "execute failed"
           /\ exists st rest,
               post = st :: rest
               /\ execute_raises (cur ++ pre)%list st = true
       end.
Proof. apply execute_each_prefix. Qed.

(** X12 (what reaches the server): every statement [_execute_statements]
    runs is non-empty, has no white space at either end and holds no
    semicolon, so a statement with a semicolon inside a literal never
    reaches the server in one piece. *)
Theorem executed_statements_are_clean
    (execute_raises : list string -> string -> bool)
    (sql_blob : string) (cur : list string) :
  exists new,
    snd (_execute_statements execute_raises sql_blob cur) = (cur ++ new)%list
    /\ Forall
         (fun st =>
            st <> ""
            /\ strip st = st
            /\ ~ In semicolon (list_ascii_of_string st))
         new.
Proof.
  destruct (execute_each_prefix execute_raises
              (split_on semicolon sql_blob) cur)
    as (pre & post & Hf & Hs & _).
  exists pre. split; [exact Hs|].
  apply Forall_forall. intros st Hin.
  assert (Hst : In st (filter str_truthy
                         (map strip (split_on semicolon sql_blob))))
    by (rewrite Hf; apply in_or_app; now left).
  apply filter_In in Hst. destruct Hst as [Hm Ht].
  apply in_map_iff in Hm. destruct Hm as (piece & <- & Hp).
  repeat split.
  - now apply str_truthy_iff.
  - apply strip_idem.
  - intros Hc. apply strip_chars in Hc.
    now apply (split_on_no_sep semicolon sql_blob piece Hp).
Qed.

(** X13 (scripts joined by a semicolon): running two scripts joined by a
    semicolon is running the first and then, unless it raised, the second
    on the cursor the first left. *)
Theorem execute_statements_concat
    (execute_raises : list string -> string -> bool)
    (a b : string) (cur : list string) :
  _execute_statements execute_raises (a ++ String semicolon b) cur
  = match _execute_statements execute_raises a cur with
    | (Ok _, cur') => _execute_statements execute_raises b cur'
    | (Raise e, cur') => (Raise e, cur')
    end.
Proof.
  unfold _execute_statements. rewrite split_on_app. apply execute_each_app.
Qed.

Lemma blank_pieces (s : string) :
  forallb (fun c => is_space c || Ascii.eqb c semicolon)
          (list_ascii_of_string s) = true ->
  Forall (fun p => all_space p = true) (split_on semicolon s).
Proof.
  induction s as [|c s IH]; simpl; intros H.
  - constructor; auto.
  - apply andb_true_iff in H. destruct H as [Hc Hs]. specialize (IH Hs).
    destruct (Ascii.eqb c semicolon) eqn:E.
    + constructor; auto.
    + rewrite orb_false_r in Hc.
      destruct (split_on semicolon s) as [|p rest]; inversion IH; subst;
        constructor; auto; rewrite all_space_cons, Hc; auto.
Qed.

(** X14 (blank scripts): a script made of white space and semicolons only,
    the empty script included, sends nothing to the server and returns,
    even on a server that would refuse every statement. *)
Theorem blank_script_runs_nothing
    (execute_raises : list string -> string -> bool)
    (sql_blob : string) (cur : list string) :
  forallb (fun c => is_space c || Ascii.eqb c semicolon)
          (list_ascii_of_string sql_blob) = true ->
  _execute_statements execute_raises sql_blob cur = (Ok tt, cur).
Proof.
  intros H. unfold _execute_statements.
  pose proof (blank_pieces sql_blob H) as Hp.
  induction Hp as [|p l Hsp _ IH]; simpl; auto.
  apply strip_empty_iff in Hsp. now rewrite Hsp.
Qed.

(** ** Adding the summary column *)

Lemma info_rows_names (cid : Z) (cols : list string) :
  map info_name (info_rows_from cid cols) = cols.
Proof.
  revert cid. induction cols as [|n cols IH]; intros cid; simpl; auto.
  now rewrite IH.
Qed.

(** X16 (running it again): on a database where [PRAGMA table_info] leaves
    the state as it is and where, once the [ALTER TABLE] built from the
    arguments has succeeded, [PRAGMA table_info] lists a column of exactly
    the name asked for, a second call of [_ensure_sqlite_column] after one
    that returned returns too, leaves the database as it is and sends its
    [PRAGMA] only, no [ALTER TABLE]. *)
Theorem ensure_column_idempotent {Db : Type} (engine : SqliteEngine Db)
    (t c d : string) (conn : Db * list string) :
  (forall db rows db',
      engine (pragma_table_info t) db = (Ok rows, db') -> db' = db) ->
  (forall db rows db',
      engine (alter_table_add_column t c d) db = (Ok rows, db') ->
      exists rows',
        engine (pragma_table_info t) db' = (Ok rows', db')
        /\ existsb (String.eqb c) (map info_name rows') = true) ->
  fst (_ensure_sqlite_column engine t c d conn) = Ok tt ->
  _ensure_sqlite_column engine t c d
    (snd (_ensure_sqlite_column engine t c d conn))
  = (Ok tt,
     (fst (snd (_ensure_sqlite_column engine t c d conn)),
      (snd (snd (_ensure_sqlite_column engine t c d conn))
         ++ [pragma_table_info t])%list)).
Proof.
  intros Hro Hadd.
  assert (Hlisted : forall db log rows,
             engine (pragma_table_info t) db = (Ok rows, db) ->
             existsb (String.eqb c) (map info_name rows) = true ->
             _ensure_sqlite_column engine t c d (db, log)
             = (Ok tt, (db, (log ++ [pragma_table_info t])%list))).
  { intros db log rows E Hin. unfold _ensure_sqlite_column, sqlite_execute.
    simpl. rewrite E. now rewrite Hin. }
  intros Hok.
  assert (Hafter : exists rows',
             engine (pragma_table_info t)
                    (fst (snd (_ensure_sqlite_column engine t c d conn)))
             = (Ok rows',
                fst (snd (_ensure_sqlite_column engine t c d conn)))
             /\ existsb (String.eqb c) (map info_name rows') = true).
  { revert Hok. destruct conn as [db log].
    unfold _ensure_sqlite_column, sqlite_execute. simpl.
    destruct (engine (pragma_table_info t) db) as [[rows|e] db1] eqn:Ep;
      [|discriminate].
    pose proof (Hro _ _ _ Ep) as ->.
    destruct (existsb (String.eqb c) (map info_name rows)) eqn:Ein; simpl.
    - intros _. now exists rows.
    - destruct (engine (alter_table_add_column t c d) db) as [[rows2|e] db2]
        eqn:Ea; [|discriminate].
      intros _. simpl. exact (Hadd _ _ _ Ea). }
  destruct Hafter as (rows' & Ep' & Hin').
  destruct (snd (_ensure_sqlite_column engine t c d conn)) as [db' log'].
  simpl in *. now apply Hlisted with (rows := rows').
Qed.

(** ** The further theorems at work *)

Lemma sample_ids_unique :
  NoDup (map review_id (table (world_of [R1; R2; R5]))).
Proof. simpl. repeat constructor; simpl; intuition discriminate. Qed.

(** X3: the batch over [R1], [R2] and [R5]. *)
Lemma batch_completeness_witness :
  db_healthy no_faults
  /\ NoDup (map review_id (table (world_of [R1; R2; R5])))
  /\ single_mode None = false
  /\ filter high_risk_missing_ai
       (table (snd (handler keys_dumps
                      (Some (client_const "Explanation X.")) no_faults
                      None (world_of [R1; R2; R5]))))
     = [].
Proof.
  split; [exact no_faults_healthy|]. split; [exact sample_ids_unique|].
  split; [reflexivity|].
  exact (batch_completeness keys_dumps
           (Some (client_const "Explanation X.")) no_faults
           None (world_of [R1; R2; R5])
           no_faults_healthy sample_ids_unique eq_refl).
Defined.

(** X4: the same batch, run twice. *)
Lemma second_batch_is_empty_witness :
  db_healthy no_faults
  /\ NoDup (map review_id (table (world_of [R1; R2; R5])))
  /\ single_mode None = false
  /\ handler keys_dumps (Some (client_const "Explanation X.")) no_faults
       None
       (snd (handler keys_dumps (Some (client_const "Explanation X."))
               no_faults None (world_of [R1; R2; R5])))
     = (Ok (Batch "SUCCESS" []),
        logged ListHighRiskMissingAi
          (snd (handler keys_dumps (Some (client_const "Explanation X."))
                  no_faults None (world_of [R1; R2; R5])))).
Proof.
  split; [exact no_faults_healthy|]. split; [exact sample_ids_unique|].
  split; [reflexivity|].
  exact (second_batch_is_empty keys_dumps
           (Some (client_const "Explanation X.")) no_faults
           None (world_of [R1; R2; R5])
           no_faults_healthy sample_ids_unique eq_refl).
Defined.

(** X6: a summary written for [R1] and read back. *)
Lemma persist_then_read_witness :
  db_healthy no_faults
  /\ (_persist_summary no_faults "R1" "Explanation X." ;;;
      _existing_ai_summary no_faults "R1") (world_of [R1; R2])
     = (Ok (if existsb (matches "R1") (table (world_of [R1; R2]))
            then Some "Explanation X." else None),
        mkWorld (sql_update "Explanation X." "R1" (table (world_of [R1; R2])))
                (gen_log (world_of [R1; R2]))
                (db_log (world_of [R1; R2])
                   ++ [UpdateSummary "Explanation X." "R1";
                       SelectSummary "R1"])).
Proof.
  split; [exact no_faults_healthy|].
  exact (persist_then_read no_faults "R1" "Explanation X."
           (world_of [R1; R2]) no_faults_healthy).
Defined.

(** X7: two writes for [R1], and one for [R1] and one for [R5]. *)
Lemma persist_composes_witness :
  db_healthy no_faults
  /\ table (snd ((_persist_summary no_faults "R1" "first" ;;;
                  _persist_summary no_faults "R1" "second")
                   (world_of [R1; R5])))
     = table (snd (_persist_summary no_faults "R1" "second"
                     (world_of [R1; R5])))
  /\ ("R1" <> "R5" ->
      table (snd ((_persist_summary no_faults "R1" "first" ;;;
                   _persist_summary no_faults "R5" "second")
                    (world_of [R1; R5])))
      = table (snd ((_persist_summary no_faults "R5" "second" ;;;
                     _persist_summary no_faults "R1" "first")
                      (world_of [R1; R5])))).
Proof.
  split; [exact no_faults_healthy|].
  exact (persist_composes no_faults "R1" "R5" "first" "second"
           (world_of [R1; R5]) no_faults_healthy).
Defined.

(** X9: [R1] with a backend whose first answer is a single space. *)
Lemma empty_summary_iff_blank_reply_witness :
  db_healthy no_faults
  /\ fetchone (table (world_of [R1])) "R1" = Some R1
  /\ risk_level R1 = "HIGH"
  /\ opt_truthy (ai_risk_summary R1) = false
  /\ (stored_summary
        (table (snd (_process_single_review keys_dumps
                       (Some (client_blank_then "Explanation X."))
                       no_faults "R1" JNull JNull (world_of [R1])))) "R1"
      = Some ""
      <-> (if truthy JNull && truthy JNull
           then blank_reply keys_dumps
                  (Some (client_blank_then "Explanation X."))
                  (gen_log (world_of [R1])) JNull JNull
           else blank_reply keys_dumps
                  (Some (client_blank_then "Explanation X."))
                  (gen_log (world_of [R1]))
                  (user_context_of R1) (policy_json_of R1))
          = true).
Proof.
  split; [exact no_faults_healthy|].
  split; [reflexivity|]. split; [reflexivity|]. split; [reflexivity|].
  exact (empty_summary_iff_blank_reply keys_dumps
           (Some (client_blank_then "Explanation X.")) no_faults
           "R1" JNull JNull (world_of [R1]) R1
           no_faults_healthy eq_refl eq_refl eq_refl).
Defined.

(** X10: [R1] by reference and with its stored fields inline. *)
Lemma by_reference_as_inline_witness :
  db_healthy no_faults
  /\ fetchone (table (world_of [R1; R2])) "R1" = Some R1
  /\ risk_level R1 = "HIGH"
  /\ fst (_process_single_review keys_dumps
            (Some (client_const "Explanation X.")) no_faults
            "R1" JNull JNull (world_of [R1; R2]))
     = fst (_process_single_review keys_dumps
              (Some (client_const "Explanation X.")) no_faults
              "R1" (user_context_of R1) (policy_json_of R1)
              (world_of [R1; R2]))
  /\ table (snd (_process_single_review keys_dumps
                   (Some (client_const "Explanation X.")) no_faults
                   "R1" JNull JNull (world_of [R1; R2])))
     = table (snd (_process_single_review keys_dumps
                     (Some (client_const "Explanation X.")) no_faults
                     "R1" (user_context_of R1) (policy_json_of R1)
                     (world_of [R1; R2])))
  /\ gen_log (snd (_process_single_review keys_dumps
                     (Some (client_const "Explanation X.")) no_faults
                     "R1" JNull JNull (world_of [R1; R2])))
     = gen_log (snd (_process_single_review keys_dumps
                       (Some (client_const "Explanation X.")) no_faults
                       "R1" (user_context_of R1) (policy_json_of R1)
                       (world_of [R1; R2]))).
Proof.
  split; [exact no_faults_healthy|].
  split; [reflexivity|]. split; [reflexivity|].
  exact (by_reference_as_inline keys_dumps
           (Some (client_const "Explanation X.")) no_faults
           "R1" (world_of [R1; R2]) R1 no_faults_healthy eq_refl eq_refl).
Defined.

(** X14: a script of blanks and semicolons, on a server that refuses
    everything. *)
Lemma blank_script_runs_nothing_witness :
  forallb (fun c => is_space c || Ascii.eqb c semicolon)
          (list_ascii_of_string (" ;" ++ nl ++ "; ")) = true
  /\ _execute_statements (fun _ _ => true) (" ;" ++ nl ++ "; ")
       ["CREATE TABLE a (x INT)"]
     = (Ok tt, ["CREATE TABLE a (x INT)"]).
Proof.
  split; [reflexivity|].
  apply (blank_script_runs_nothing (fun _ _ => true) (" ;" ++ nl ++ "; ")
           ["CREATE TABLE a (x INT)"]).
  reflexivity.
Defined.

Lemma sample_engine_pragma_reads :
  forall db rows db',
    sample_engine (pragma_table_info "access_reviews") db = (Ok rows, db') ->
    db' = db.
Proof. intros db rows db' E. vm_compute in E. now inversion E. Qed.

Lemma sample_engine_lists_added :
  forall db rows db',
    sample_engine
      (alter_table_add_column "access_reviews" "ai_risk_summary" "TEXT") db
    = (Ok rows, db') ->
    exists rows',
      sample_engine (pragma_table_info "access_reviews") db' = (Ok rows', db')
      /\ existsb (String.eqb "ai_risk_summary") (map info_name rows') = true.
Proof.
  intros db rows db' E.
  change (sample_engine
            (alter_table_add_column "access_reviews" "ai_risk_summary" "TEXT")
            db)
    with (if existsb (String.eqb "ai_risk_summary") db
          then (Raise (DbError "duplicate column name: ai_risk_summary"), db)
          else (Ok (@nil InfoRow), (db ++ ["ai_risk_summary"])%list)) in E.
  destruct (existsb (String.eqb "ai_risk_summary") db); [discriminate|].
  inversion E; subst. exists (info_rows_from 0 (db ++ ["ai_risk_summary"])).
  split; [reflexivity|].
  rewrite info_rows_names, existsb_app. simpl. apply orb_true_r.
Qed.

(** X16: the migration of [access_reviews], run twice. *)
Lemma ensure_column_idempotent_witness :
  (forall db rows db',
      sample_engine (pragma_table_info "access_reviews") db = (Ok rows, db') ->
      db' = db)
  /\ (forall db rows db',
        sample_engine
          (alter_table_add_column "access_reviews" "ai_risk_summary" "TEXT")
          db
        = (Ok rows, db') ->
        exists rows',
          sample_engine (pragma_table_info "access_reviews") db'
          = (Ok rows', db')
          /\ existsb (String.eqb "ai_risk_summary") (map info_name rows')
             = true)
  /\ fst (_ensure_sqlite_column sample_engine "access_reviews"
            "ai_risk_summary" "TEXT" (["review_id"; "risk_level"], []))
     = Ok tt
  /\ _ensure_sqlite_column sample_engine "access_reviews" "ai_risk_summary"
       "TEXT"
       (snd (_ensure_sqlite_column sample_engine "access_reviews"
               "ai_risk_summary" "TEXT" (["review_id"; "risk_level"], [])))
     = (Ok tt,
        (fst (snd (_ensure_sqlite_column sample_engine "access_reviews"
                     "ai_risk_summary" "TEXT"
                     (["review_id"; "risk_level"], []))),
         (snd (snd (_ensure_sqlite_column sample_engine "access_reviews"
                      "ai_risk_summary" "TEXT"
                      (["review_id"; "risk_level"], [])))
            ++ [pragma_table_info "access_reviews"])%list)).
Proof.
  split; [exact sample_engine_pragma_reads|].
  split; [exact sample_engine_lists_added|].
  split; [reflexivity|].
  exact (ensure_column_idempotent sample_engine "access_reviews"
           "ai_risk_summary" "TEXT" (["review_id"; "risk_level"], [])
           sample_engine_pragma_reads sample_engine_lists_added eq_refl).
Defined.

(** Runs of the migration helpers. *)
Example script_statements_in_order :
  _execute_statements never_raises sample_script []
  = (Ok tt, ["CREATE TABLE a (x INT)"; "CREATE TABLE b (y INT)"]).
Proof. reflexivity. Qed.

Example script_stops_at_refusal :
  _execute_statements (refuses "CREATE TABLE a (x INT)") sample_script []
  = (Raise (DbError "execute failed"), []).
Proof. reflexivity. Qed.

Example column_added_then_found :
  _ensure_sqlite_column sample_engine "access_reviews" "ai_risk_summary"
    "TEXT" (["review_id"; "risk_level"], [])
  = (Ok tt,
     (["review_id"; "risk_level"; "ai_risk_summary"],
      ["PRAGMA table_info(access_reviews)";
       "ALTER TABLE access_reviews ADD COLUMN ai_risk_summary TEXT"])).
Proof. reflexivity. Qed.
